(** * MongoCatalogApp: the product catalogue service over a document store

    A shallow embedding of [services/products.py] (the data-access layer)
    and [app.py] (the FastAPI routing layer), together with a model of the
    part of the document store these two files drive through PyMongo.

    Layout:
    - [Bson]     values held in documents and request bodies;
    - [Mongo]    the collection: point lookup, insert, the four update
                 shapes the services build, delete;
    - [Py]       exceptions, the calls a request makes on the collection,
                 and programs over those calls;
    - [Products] services/products.py, function by function;
    - [App]      app.py: the request models, the route table in
                 declaration order, dispatch and the handlers;
    - the properties of the specification.

    Scope of the store model.  Field names supplied by callers are taken
    as single path components (no dot, no leading dollar sign), and equality
    conditions compare whole values, an absent field comparing equal to
    null.  The server is taken to accept an operator with an empty operand
    (MongoDB 5.0 and later).  Serialisation of a handler's return value
    through [response_model] is not modelled: a response carries the value
    the handler returned. *)

From Stdlib Require Import ZArith.
From stdpp Require Import fin_maps option gmap strings list.

Set Warnings "-register-all".
Set Default Proof Using "Type".
Open Scope Z_scope.

(* ================================================================= *)
(** ** Values *)

Module Bson.

(** JSON / BSON values.  [VOid] is an ObjectId generated by the driver;
    [VDec u p] is the decimal number [u * 10^-p]. *)
Inductive value : Type :=
  | VNull
  | VBool (b : bool)
  | VInt (n : Z)
  | VDec (unscaled : Z) (places : nat)
  | VStr (s : string)
  | VOid (n : N)
  | VArr (l : list value)
  | VDoc (d : gmap string value).

(** A Python dict with string keys. *)
Abbreviation doc := (gmap string value).

#[global] Instance value_eq_dec : EqDecision value.
Proof.
  refine (fix go (x y : value) {struct x} : Decision (x = y) :=
    let _ : EqDecision value := go in
    match x, y with
    | VNull, VNull => left _
    | VBool a, VBool b => cast_if (decide (a = b))
    | VInt a, VInt b => cast_if (decide (a = b))
    | VDec a p, VDec b q => cast_if_and (decide (a = b)) (decide (p = q))
    | VStr a, VStr b => cast_if (decide (a = b))
    | VOid a, VOid b => cast_if (decide (a = b))
    | VArr a, VArr b => cast_if (decide (a = b))
    | VDoc a, VDoc b => cast_if (decide (a = b))
    | _, _ => right _
    end); congruence.
Defined.

(** Python truthiness, as used by [if not result.inserted_id]. *)
Definition truthy (v : value) : bool :=
  match v with
  | VNull => false
  | VBool b => b
  | VInt n => negb (n =? 0)
  | VDec u _ => negb (u =? 0)
  | VStr s => negb (bool_decide (s = ""%string))
  | VOid _ => true
  | VArr l => negb (bool_decide (l = []))
  | VDoc d => negb (bool_decide (d = ∅))
  end.

(** Truthiness of what [find_one] returns: [None] and the empty dict are
    falsy. *)
Definition truthy_doc (o : option doc) : bool :=
  match o with
  | Some d => negb (bool_decide (d = ∅))
  | None => false
  end.

End Bson.
Export Bson.

(* ================================================================= *)
(** ** The collection *)

Module Mongo.

(** One equality condition of a filter document.
    [FieldEq k v] is [{k: v}];
    [ElemFieldEq a k v] is [{"a.k": v}] on an array field [a]. *)
Inductive cond : Type :=
  | FieldEq (k : string) (v : value)
  | ElemFieldEq (arr k : string) (v : value).

Abbreviation query := (list cond).

(** Equality against a possibly absent field: absent compares as null. *)
Definition field_eq (o : option value) (v : value) : bool :=
  bool_decide (default VNull o = v).

(** The fields of an array element; a scalar element has none. *)
Definition elem_fields (e : value) : doc :=
  match e with VDoc d => d | _ => ∅ end.

Definition elem_field_eq (k : string) (v : value) (e : value) : bool :=
  field_eq (elem_fields e !! k) v.

Definition cond_holds (d : doc) (c : cond) : bool :=
  match c with
  | FieldEq k v => field_eq (d !! k) v
  | ElemFieldEq arr k v =>
      match d !! arr with
      | Some (VArr l) => existsb (elem_field_eq k v) l
      | Some (VDoc e) => field_eq (e !! k) v
      | _ => bool_decide (v = VNull)
      end
  end.

Definition matches (q : query) (d : doc) : bool := forallb (cond_holds d) q.

(** Index and value of the first element satisfying [f]. *)
Fixpoint find_index {A} (f : A → bool) (l : list A) : option (nat * A) :=
  match l with
  | [] => None
  | x :: l' =>
      if f x then Some (0%nat, x)
      else prod_map S id <$> find_index f l'
  end.

(** The array filter [{"ident.k": v, ...}] of [array_filters], applied to
    one element: every criterion must hold. *)
Definition elem_matches (criteria : doc) (e : value) : bool :=
  bool_decide (map_Forall (λ k v, field_eq (elem_fields e !! k) v = true) criteria).

(** The update documents the services build. *)
Inductive update : Type :=
  | SetFields (fields : doc)
      (* {"$set": {k: v, ...}} *)
  | Push (arr : string) (v : value)
      (* {"$push": {arr: v}} *)
  | SetPositional (arr : string) (fields : doc)
      (* {"$set": {"arr.$.k": v, ...}} *)
  | SetFiltered (arr ident : string) (fields : doc).
      (* {"$set": {"arr.$[ident].k": v, ...}} *)

(** Errors the driver raises (all are [PyMongoError]s). *)
Inductive driver_error : Type :=
  | DuplicateKeyError
  | WriteError (msg : string).

Record store : Type := Store {
  docs : list doc;      (* the collection, in storage order *)
  next_oid : N          (* source of fresh ObjectIds *)
}.

#[global] Instance driver_error_eq_dec : EqDecision driver_error.
Proof. solve_decision. Defined.

#[global] Instance store_eq_dec : EqDecision store.
Proof. solve_decision. Defined.

Definition find_first (q : query) (s : store) : option (nat * doc) :=
  find_index (matches q) (docs s).

(** [{"_id": 0}] *)
Definition project (exclude_id : bool) (d : doc) : doc :=
  if exclude_id then delete "_id"%string d else d.

Definition find_one (q : query) (exclude_id : bool) (s : store) : option doc :=
  project exclude_id ∘ snd <$> find_first q s.

Definition find (q : query) (exclude_id : bool) (s : store) : list doc :=
  project exclude_id <$> filter (λ d, matches q d = true) (docs s).

Record InsertOneResult : Type := { inserted_id : value }.
Record UpdateResult : Type := { matched_count : Z; modified_count : Z }.
Record DeleteResult : Type := { deleted_count : Z }.

(** [insert_one]: the driver adds a fresh [_id] when the document has none;
    the server refuses an [_id] already in the collection. *)
Definition insert_one (d : doc) (s : store)
    : (driver_error + InsertOneResult) * store :=
  let '(d', nxt) :=
    match d !! "_id"%string with
    | Some _ => (d, next_oid s)
    | None => (<["_id"%string := VOid (next_oid s)]> d, N.succ (next_oid s))
    end in
  let oid := default VNull (d' !! "_id"%string) in
  if existsb (λ e, bool_decide (e !! "_id"%string = Some oid)) (docs s)
  then (inl DuplicateKeyError, Store (docs s) nxt)
  else (inr {| inserted_id := oid |}, Store (docs s ++ [d']) nxt).

(** The array element the positional operator stands for: the first one
    that satisfies the filter's conditions on that array. *)
Definition array_conds (arr : string) (q : query) : list (string * value) :=
  omap (λ c, match c with
             | ElemFieldEq a k v =>
                 if bool_decide (a = arr) then Some (k, v) else None
             | FieldEq _ _ => None
             end) q.

Definition positional_index (arr : string) (q : query) (l : list value)
    : option (nat * value) :=
  match array_conds arr q with
  | [] => None
  | cs => find_index (λ e, forallb (λ '(k, v), elem_field_eq k v e) cs) l
  end.

(** [$set] of plain fields on a document. *)
Definition set_fields (fields : doc) (d : doc) : doc := fields ∪ d.

Definition set_elem (fields : doc) (e : value) : driver_error + value :=
  match e with
  | VDoc ed => inr (VDoc (set_fields fields ed))
  | _ => inl (WriteError "Cannot create field in element")
  end.

(** The criteria registered for [ident] in [array_filters]. *)
Definition filter_for (ident : string) (filters : list (string * doc)) : doc :=
  match list_find (λ f, f.1 = ident) filters with
  | Some (_, f) => f.2
  | None => ∅
  end.

(** One element under a filtered [$set]: elements satisfying the criteria
    receive the fields, the others are kept. *)
Definition set_filtered_elem (criteria fields : doc) (e : value)
    : driver_error + value :=
  if elem_matches criteria e then set_elem fields e else inr e.

Fixpoint set_filtered (criteria fields : doc) (l : list value)
    : driver_error + list value :=
  match l with
  | [] => inr []
  | e :: l' =>
      match set_filtered_elem criteria fields e with
      | inl err => inl err
      | inr e' =>
          match set_filtered criteria fields l' with
          | inl err => inl err
          | inr l'' => inr (e' :: l'')
          end
      end
  end.

Definition no_positional_match : driver_error :=
  WriteError "The positional operator did not find the match needed from the query".

(** Applying an update to the matched document. *)
Definition apply_update (q : query) (u : update) (filters : list (string * doc))
    (d : doc) : driver_error + doc :=
  match u with
  | SetFields fields =>
      match fields !! "_id"%string with
      | Some v =>
          if bool_decide (d !! "_id"%string = Some v)
          then inr (set_fields fields d)
          else inl (WriteError "would modify the immutable field _id")
      | None => inr (set_fields fields d)
      end
  | Push arr v =>
      match d !! arr with
      | None => inr (<[arr := VArr [v]]> d)
      | Some (VArr l) => inr (<[arr := VArr (l ++ [v])]> d)
      | Some _ => inl (WriteError "The field must be an array")
      end
  | SetPositional arr fields =>
      if bool_decide (fields = ∅) then inr d else
      match d !! arr with
      | Some (VArr l) =>
          match positional_index arr q l with
          | Some (i, e) =>
              match set_elem fields e with
              | inr e' => inr (<[arr := VArr (<[i := e']> l)]> d)
              | inl err => inl err
              end
          | None => inl no_positional_match
          end
      | _ => inl no_positional_match
      end
  | SetFiltered arr ident fields =>
      match d !! arr with
      | Some (VArr l) =>
          match set_filtered (filter_for ident filters) fields l with
          | inr l' => inr (<[arr := VArr l']> d)
          | inl err => inl err
          end
      | Some _ => inl (WriteError "Cannot apply array updates to non-array element")
      | None => inl (WriteError "The path must exist in the document in order to apply array updates")
      end
  end.

(** What the server checks when it parses the update, before looking for
    a document: every array filter names a field, every array filter is
    used by the update, and every filtered path has its filter. *)
Definition parse_update (u : update) (filters : list (string * doc))
    : option driver_error :=
  if existsb (λ f, bool_decide (f.2 = ∅)) filters
  then Some (WriteError "Cannot use an expression without a top-level field name in arrayFilters")
  else
    match u with
    | SetFiltered _ ident fields =>
        if bool_decide (fields = ∅)
        then match filters with
             | [] => None
             | _ => Some (WriteError "The array filter for identifier was not used in the update")
             end
        else if forallb (λ f, bool_decide (f.1 = ident)) filters
        then match filters with
             | [] => Some (WriteError "No array filter found for identifier")
             | _ => None
             end
        else Some (WriteError "The array filter for identifier was not used in the update")
    | _ =>
        match filters with
        | [] => None
        | _ => Some (WriteError "The array filter for identifier was not used in the update")
        end
    end.

(** [update_one]: at most the first matching document is updated. *)
Definition update_one (q : query) (u : update) (filters : list (string * doc))
    (s : store) : (driver_error + UpdateResult) * store :=
  match parse_update u filters with
  | Some err => (inl err, s)
  | None =>
      match find_first q s with
      | None => (inr {| matched_count := 0; modified_count := 0 |}, s)
      | Some (i, d) =>
          match apply_update q u filters d with
          | inl err => (inl err, s)
          | inr d' =>
              (inr {| matched_count := 1;
                      modified_count := if bool_decide (d' = d) then 0 else 1 |},
               Store (<[i := d']> (docs s)) (next_oid s))
          end
      end
  end.

(** [delete_one]: at most the first matching document is removed. *)
Definition delete_one (q : query) (s : store) : DeleteResult * store :=
  match find_first q s with
  | None => ({| deleted_count := 0 |}, s)
  | Some (i, _) => ({| deleted_count := 1 |}, Store (delete i (docs s)) (next_oid s))
  end.

End Mongo.

(* ================================================================= *)
(** ** Exceptions, driver calls and programs *)

Module Py.
Import Mongo.

Inductive exn : Type :=
  | HTTPException (status_code : Z) (detail : string)
  | KeyError (k : string)
  | PyMongoError (e : driver_error).

(** The calls the services make on the collection handle, indexed by the
    type of what they return. *)
Inductive call : Type → Type :=
  | FindOne (q : query) (exclude_id : bool) : call (option doc)
  | Find (q : query) (exclude_id : bool) : call (list doc)
  | InsertOne (d : doc) : call InsertOneResult
  | UpdateOne (q : query) (u : update) (filters : list (string * doc))
      : call UpdateResult
  | DeleteOne (q : query) : call DeleteResult.

(** A service function: it returns, raises, or calls the collection and
    goes on with the answer. *)
Inductive prog (A : Type) : Type :=
  | Ret (a : A)
  | Raise (e : exn)
  | Call {X : Type} (c : call X) (k : X → prog A).
Arguments Ret {A} a.
Arguments Raise {A} e.
Arguments Call {A X} c k.

Fixpoint bind {A B} (p : prog A) (f : A → prog B) : prog B :=
  match p with
  | Ret a => f a
  | Raise e => Raise e
  | Call c k => Call c (λ x, bind (k x) f)
  end.

#[global] Instance prog_ret : MRet prog := @Ret.
#[global] Instance prog_bind : MBind prog := λ A B f p, bind p f.
#[global] Instance prog_fmap : FMap prog := λ A B f p, bind p (λ a, Ret (f a)).

Definition coll {X} (c : call X) : prog X := Call c Ret.

Inductive outcome (A : Type) : Type :=
  | Returned (a : A)
  | Raised (e : exn).
Arguments Returned {A} a.
Arguments Raised {A} e.

(** How a collection answers a call in a state of type [S]. *)
Definition handler (S : Type) : Type := ∀ X, call X → S → (exn + X) * S.

Fixpoint run_with {S A} (h : handler S) (p : prog A) (s : S) : outcome A * S :=
  match p with
  | Ret a => (Returned a, s)
  | Raise e => (Raised e, s)
  | Call c k =>
      match h _ c s with
      | (inl e, s') => (Raised e, s')
      | (inr x, s') => run_with h (k x) s'
      end
  end.

Definition lift_err {X} (r : (driver_error + X) * store) : (exn + X) * store :=
  match r with
  | (inl e, s) => (inl (PyMongoError e), s)
  | (inr x, s) => (inr x, s)
  end.

(** The collection of [Mongo], one request at a time. *)
Definition exec : handler store := λ X c,
  match c in call X return store → (exn + X) * store with
  | FindOne q ex => λ s, (inr (find_one q ex s), s)
  | Find q ex => λ s, (inr (find q ex s), s)
  | InsertOne d => λ s, lift_err (insert_one d s)
  | UpdateOne q u fs => λ s, lift_err (update_one q u fs s)
  | DeleteOne q => λ s, let '(r, s') := delete_one q s in (inr r, s')
  end.

Definition run {A} (p : prog A) (s : store) : outcome A * store :=
  run_with exec p s.

(** The same collection shared with other clients: after each call of this
    request, the next pending write of another client takes effect. *)
Definition exec_shared : handler (list (store → store) * store) := λ X c st,
  let '(r, s') := exec X c st.2 in
  match st.1 with
  | [] => (r, ([], s'))
  | w :: ws => (r, (ws, w s'))
  end.

Definition run_shared {A} (others : list (store → store)) (p : prog A)
    (s : store) : outcome A * store :=
  let '(o, st) := run_with exec_shared p (others, s) in (o, st.2).

End Py.

(* ================================================================= *)
(** ** services/products.py *)

Module Products.
Import Mongo Py.
Open Scope string_scope.

Definition sku_query (sku : value) : query := [FieldEq "sku" sku].

(** helper for not found SKU *)
Definition _not_found {A} (sku : string) : prog A :=
  Raise (HTTPException 404 ("Product with SKU '" ++ sku ++ "' not found")).

Definition create_product (product_data : doc) : prog (option doc) :=
  match product_data !! "sku" with
  | None => Raise (KeyError "sku")
  | Some sku =>
      existing ← coll (FindOne (sku_query sku) false);
      if truthy_doc existing
      then Raise (HTTPException 409 "SKU already exists")
      else
        result ← coll (InsertOne product_data);
        if negb (truthy (inserted_id result))
        then Raise (HTTPException 500 "Failed to insert product")
        else coll (FindOne (sku_query sku) true)
  end.

Definition get_product (sku : string) : prog (option doc) :=
  d ← coll (FindOne (sku_query (VStr sku)) true);
  if negb (truthy_doc d) then _not_found sku else mret d.

Definition get_all_products : prog (list doc) :=
  coll (Find [] true).

Definition update_product (sku : string) (update_data : doc) : prog (option doc) :=
  res ← coll (UpdateOne (sku_query (VStr sku)) (SetFields update_data) []);
  if (matched_count res =? 0)%Z then _not_found sku
  else coll (FindOne (sku_query (VStr sku)) true).

Definition delete_product (sku : string) : prog doc :=
  res ← coll (DeleteOne (sku_query (VStr sku)));
  if (deleted_count res =? 0)%Z then _not_found sku
  else mret {[ "message" := VStr ("Product '" ++ sku ++ "' deleted successfully") ]}.

Definition add_review (sku : string) (review_data : doc) : prog (option doc) :=
  res ← coll (UpdateOne (sku_query (VStr sku)) (Push "reviews" (VDoc review_data)) []);
  if (matched_count res =? 0)%Z then _not_found sku
  else coll (FindOne (sku_query (VStr sku)) true).

Definition update_review_positional (sku review_id : string) (update_data : doc)
    : prog (option doc) :=
  res ← coll (UpdateOne
                [FieldEq "sku" (VStr sku); ElemFieldEq "reviews" "review_id" (VStr review_id)]
                (SetPositional "reviews" update_data) []);
  if (matched_count res =? 0)%Z then _not_found sku
  else coll (FindOne (sku_query (VStr sku)) true).

Definition update_review_array_filters (sku : string) (filter_criteria new_data : doc)
    : prog (option doc) :=
  res ← coll (UpdateOne (sku_query (VStr sku))
                (SetFiltered "reviews" "rev" new_data)
                [("rev", filter_criteria)]);
  if (matched_count res =? 0)%Z then _not_found sku
  else coll (FindOne (sku_query (VStr sku)) true).

End Products.

(* ================================================================= *)
(** ** app.py *)

Module App.
Import Mongo Py.
Open Scope string_scope.

(** *** Field validators of the request models

    A body is a JSON object.  Fields the model does not declare are
    ignored.  Only exact JSON types are accepted here: the framework's
    conversions between types (a numeric string for an integer, say) are
    left out, and such bodies count as invalid. *)

Definition req_str (o : option value) : option string :=
  match o with Some (VStr s) => Some s | _ => None end.

Definition req_bool (o : option value) : option bool :=
  match o with Some (VBool b) => Some b | _ => None end.

(** [Optional[T] = None]: an absent field and an explicit null both give
    [None]. *)
Definition optional {T} (f : option value → option T) (o : option value)
    : option (option T) :=
  match o with
  | None | Some VNull => Some None
  | _ => Some <$> f o
  end.

(** [conint(ge=1, le=5)] *)
Definition req_rating (o : option value) : option Z :=
  match o with
  | Some (VInt n) => if (1 <=? n)%Z && (n <=? 5)%Z then Some n else None
  | _ => None
  end.

(** [condecimal(ge=0, max_digits=10, decimal_places=2)]: at most two
    decimal places and, with ten digits in all, eight before the point. *)
Definition decimal_ok (u : Z) (p : nat) : bool :=
  (0 <=? u)%Z && bool_decide (p ≤ 2)%nat && (u <? 10 ^ (8 + Z.of_nat p))%Z.

Definition req_price (o : option value) : option (Z * nat) :=
  match o with
  | Some (VInt n) => if decimal_ok n 0 then Some (n, 0%nat) else None
  | Some (VDec u p) => if decimal_ok u p then Some (u, p) else None
  | _ => None
  end.

Definition dump_opt_str (o : option string) : value :=
  match o with Some s => VStr s | None => VNull end.

(** Represents a single review inside a product. *)
Module Review.
Record t : Type := {
  review_id : string;
  user_id : string;
  rating : Z;
  comment : option string;
  verified : bool
}.

Definition validate (body : value) : option t :=
  match body with
  | VDoc b =>
      review_id ← req_str (b !! "review_id");
      user_id ← req_str (b !! "user_id");
      rating ← req_rating (b !! "rating");
      comment ← optional req_str (b !! "comment");
      verified ← req_bool (b !! "verified");
      Some {| review_id := review_id; user_id := user_id; rating := rating;
              comment := comment; verified := verified |}
  | _ => None
  end.

Definition model_dump (r : t) : doc :=
  {[ "review_id" := VStr (review_id r);
     "user_id" := VStr (user_id r);
     "rating" := VInt (rating r);
     "comment" := dump_opt_str (comment r);
     "verified" := VBool (verified r) ]}.
End Review.

Module ReviewUpdate.
Record t : Type := {
  user_id : option string;
  rating : option Z;
  comment : option string;
  verified : option bool
}.

Definition validate (body : value) : option t :=
  match body with
  | VDoc b =>
      user_id ← optional req_str (b !! "user_id");
      rating ← optional req_rating (b !! "rating");
      comment ← optional req_str (b !! "comment");
      verified ← optional req_bool (b !! "verified");
      Some {| user_id := user_id; rating := rating;
              comment := comment; verified := verified |}
  | _ => None
  end.

Definition put {T} (k : string) (f : T → value) (o : option T) (d : doc) : doc :=
  match o with Some x => <[k := f x]> d | None => d end.

(** [model_dump(exclude_none=True)] *)
Definition model_dump_exclude_none (r : t) : doc :=
  put "user_id" VStr (user_id r)
    (put "rating" VInt (rating r)
      (put "comment" VStr (comment r)
        (put "verified" VBool (verified r) ∅))).
End ReviewUpdate.

Module ReviewArrayFilterUpdate.
Record t : Type := {
  filter_criteria : doc;
  new_data : doc
}.

Definition validate (body : value) : option t :=
  match body with
  | VDoc b =>
      match b !! "filter_criteria", b !! "new_data" with
      | Some (VDoc fc), Some (VDoc nd) =>
          Some {| filter_criteria := fc; new_data := nd |}
      | _, _ => None
      end
  | _ => None
  end.
End ReviewArrayFilterUpdate.

(** Model for creating a new product. *)
Module ProductCreate.
Record t : Type := {
  sku : string;
  name : string;
  price : Z * nat;
  category : option string;
  reviews : list Review.t
}.

Definition validate (body : value) : option t :=
  match body with
  | VDoc b =>
      sku ← req_str (b !! "sku");
      name ← req_str (b !! "name");
      price ← req_price (b !! "price");
      category ← optional req_str (b !! "category");
      reviews ← match b !! "reviews" with
                | None => Some []
                | Some (VArr l) => mapM Review.validate l
                | Some _ => None
                end;
      Some {| sku := sku; name := name; price := price;
              category := category; reviews := reviews |}
  | _ => None
  end.

Definition model_dump (p : t) : doc :=
  {[ "sku" := VStr (sku p);
     "name" := VStr (name p);
     "price" := VDec (price p).1 (price p).2;
     "category" := dump_opt_str (category p);
     "reviews" := VArr (VDoc ∘ Review.model_dump <$> reviews p) ]}.
End ProductCreate.

(** Model for updating an existing product. *)
Module ProductUpdate.
Record t : Type := {
  name : option string;
  price : option (Z * nat);
  category : option string
}.

Definition validate (body : value) : option t :=
  match body with
  | VDoc b =>
      name ← optional req_str (b !! "name");
      price ← optional req_price (b !! "price");
      category ← optional req_str (b !! "category");
      Some {| name := name; price := price; category := category |}
  | _ => None
  end.

Definition model_dump (p : t) : doc :=
  {[ "name" := dump_opt_str (name p);
     "price" := match price p with Some (u, d) => VDec u d | None => VNull end;
     "category" := dump_opt_str (category p) ]}.
End ProductUpdate.

(** *** Endpoints *)

Definition health_check : prog doc := mret {[ "status" := VStr "ok" ]}.

Definition list_products : prog (list doc) := Products.get_all_products.

Definition get_product (sku : string) : prog (option doc) :=
  Products.get_product sku.

Definition create_product (body : ProductCreate.t) : prog (option doc) :=
  Products.create_product (ProductCreate.model_dump body).

(** [{k: v for k, v in body.model_dump().items() if v is not None}] *)
Definition not_none (kv : string * value) : Prop := kv.2 ≠ VNull.

Definition update_product (sku : string) (body : ProductUpdate.t) : prog (option doc) :=
  let update_data := filter not_none (ProductUpdate.model_dump body) in
  Products.update_product sku update_data.

Definition delete_product (sku : string) : prog unit :=
  _ ← Products.delete_product sku; mret ().

Definition add_review (sku : string) (review : Review.t) : prog (option doc) :=
  Products.add_review sku (Review.model_dump review).

Definition update_review_positional (sku review_id : string) (body : ReviewUpdate.t)
    : prog (option doc) :=
  Products.update_review_positional sku review_id
    (ReviewUpdate.model_dump_exclude_none body).

Definition patch_review_with_arrayfilter (sku : string)
    (body : ReviewArrayFilterUpdate.t) : prog (option doc) :=
  Products.update_review_array_filters sku
    (ReviewArrayFilterUpdate.filter_criteria body)
    (ReviewArrayFilterUpdate.new_data body).

(** *** The route table and dispatch *)

Inductive method : Type := GET | POST | PATCH | DELETE.

#[global] Instance method_eq_dec : EqDecision method.
Proof. solve_decision. Defined.

(** A path template segment: literal text or a [{name}] parameter. *)
Inductive seg : Type :=
  | Lit (s : string)
  | Param (name : string).

Inductive endpoint : Type :=
  | HealthCheck
  | ListProducts
  | GetProduct
  | CreateProduct
  | UpdateProduct
  | DeleteProduct
  | AddReview
  | UpdateReviewPositional
  | PatchReviewWithArrayfilter.

Record route : Type := Route {
  route_method : method;
  route_path : list seg;
  route_endpoint : endpoint;
  route_status : Z
}.

(** The routes, in the order app.py declares them. *)
Definition routes : list route := [
  Route GET    [Lit "health"] HealthCheck 200;
  Route GET    [Lit "products"] ListProducts 200;
  Route GET    [Lit "products"; Param "sku"] GetProduct 200;
  Route POST   [Lit "products"] CreateProduct 201;
  Route PATCH  [Lit "products"; Param "sku"] UpdateProduct 200;
  Route DELETE [Lit "products"; Param "sku"] DeleteProduct 204;
  Route POST   [Lit "products"; Param "sku"; Lit "reviews"] AddReview 201;
  Route PATCH  [Lit "products"; Param "sku"; Lit "reviews"; Param "review_id"]
               UpdateReviewPositional 200;
  Route PATCH  [Lit "products"; Param "sku"; Lit "reviews"; Lit "arrayfilters"]
               PatchReviewWithArrayfilter 200
].

(** Matching a request path, given as its segments, against a template;
    a parameter takes any non-empty segment. *)
Fixpoint match_path (tpl : list seg) (path : list string)
    : option (list (string * string)) :=
  match tpl, path with
  | [], [] => Some []
  | Lit s :: tpl', x :: path' =>
      if bool_decide (s = x) then match_path tpl' path' else None
  | Param n :: tpl', x :: path' =>
      if bool_decide (x = "") then None
      else (λ ps, (n, x) :: ps) <$> match_path tpl' path'
  | _, _ => None
  end.

Inductive dispatched : Type :=
  | Matched (r : route) (params : list (string * string))
  | MethodNotAllowed
  | NoRoute.

(** The router: the first route matching path and method takes the
    request; a path that only matches under another method is refused
    with 405. *)
Fixpoint dispatch_in (rs : list route) (m : method) (path : list string)
    (partial : bool) : dispatched :=
  match rs with
  | [] => if partial then MethodNotAllowed else NoRoute
  | r :: rs' =>
      match match_path (route_path r) path with
      | Some params =>
          if bool_decide (route_method r = m) then Matched r params
          else dispatch_in rs' m path true
      | None => dispatch_in rs' m path partial
      end
  end.

Definition dispatch (m : method) (path : list string) : dispatched :=
  dispatch_in routes m path false.

Record request : Type := Request {
  req_method : method;
  req_path : list string;
  req_body : value
}.

Record response : Type := Response {
  status : Z;
  content : value
}.

Definition param (n : string) (ps : list (string * string)) : string :=
  match list_find (λ p, p.1 = n) ps with
  | Some (_, p) => p.2
  | None => ""
  end.

Definition json_opt (o : option doc) : value :=
  match o with Some d => VDoc d | None => VNull end.

(** Binding the path parameters and the validated body to the endpoint
    function; [None] is a body the model rejects. *)
Definition endpoint_call (e : endpoint) (ps : list (string * string))
    (body : value) : option (prog value) :=
  match e with
  | HealthCheck => Some (VDoc <$> health_check)
  | ListProducts => Some ((λ l, VArr (VDoc <$> l)) <$> list_products)
  | GetProduct => Some (json_opt <$> get_product (param "sku" ps))
  | CreateProduct =>
      b ← ProductCreate.validate body;
      Some (json_opt <$> create_product b)
  | UpdateProduct =>
      b ← ProductUpdate.validate body;
      Some (json_opt <$> update_product (param "sku" ps) b)
  | DeleteProduct =>
      Some ((λ _, VNull) <$> delete_product (param "sku" ps))
  | AddReview =>
      b ← Review.validate body;
      Some (json_opt <$> add_review (param "sku" ps) b)
  | UpdateReviewPositional =>
      b ← ReviewUpdate.validate body;
      Some (json_opt <$> update_review_positional (param "sku" ps) (param "review_id" ps) b)
  | PatchReviewWithArrayfilter =>
      b ← ReviewArrayFilterUpdate.validate body;
      Some (json_opt <$> patch_review_with_arrayfilter (param "sku" ps) b)
  end.

Definition error_response (e : exn) : response :=
  match e with
  | HTTPException sc detail => Response sc (VDoc {[ "detail" := VStr detail ]})
  | _ => Response 500 (VStr "Internal Server Error")
  end.

(** One request against the store. *)
Definition serve (req : request) (s : store) : response * store :=
  match dispatch (req_method req) (req_path req) with
  | NoRoute => (Response 404 (VDoc {[ "detail" := VStr "Not Found" ]}), s)
  | MethodNotAllowed =>
      (Response 405 (VDoc {[ "detail" := VStr "Method Not Allowed" ]}), s)
  | Matched r ps =>
      match endpoint_call (route_endpoint r) ps (req_body req) with
      | None => (Response 422 (VDoc {[ "detail" := VStr "Unprocessable Entity" ]}), s)
      | Some p =>
          match run p s with
          | (Returned v, s') => (Response (route_status r) v, s')
          | (Raised e, s') => (error_response e, s')
          end
      end
  end.

End App.

(* ================================================================= *)
(** ** Vocabulary of the specification *)

Module Spec.
Import Mongo Py.
Open Scope string_scope.

(** [d] is the document of the product [sku]. *)
Definition has_sku (sku : string) (d : doc) : Prop :=
  d !! "sku" = Some (VStr sku).

(** No document of the store carries [sku]. *)
Definition absent (sku : string) (s : store) : Prop :=
  ∀ d, d ∈ docs s → ¬ has_sku sku d.

(** [p], at position [i], is the document a lookup by [sku] reaches: the
    first one carrying it. *)
Definition stored (s : store) (sku : string) (i : nat) (p : doc) : Prop :=
  docs s !! i = Some p ∧ has_sku sku p ∧
  ∀ j q, (j < i)%nat → docs s !! j = Some q → ¬ has_sku sku q.

(** The data model's invariant: a sku identifies one document. *)
Definition unique_skus (s : store) : Prop :=
  ∀ i j p q sku,
    docs s !! i = Some p → docs s !! j = Some q →
    has_sku sku p → has_sku sku q → i = j.

(** ObjectIds still to be generated are not in use. *)
Definition fresh_ids (s : store) : Prop :=
  ∀ d n, d ∈ docs s → d !! "_id" = Some (VOid n) → (n < next_oid s)%N.

(** The store with document [i] replaced by [p']. *)
Definition replaced (s : store) (i : nat) (p' : doc) : store :=
  Store (<[i := p']> (docs s)) (next_oid s).

(** The review [e] carries the identifier [rid]. *)
Definition has_review_id (rid : string) (e : value) : Prop :=
  elem_fields e !! "review_id" = Some (VStr rid).

(** The filter of PositionalUpdate. *)
Abbreviation positional_query sku rid :=
  [FieldEq "sku" (VStr sku); ElemFieldEq "reviews" "review_id" (VStr rid)].

(** The review [r] satisfies every criterion, an absent field counting as
    null. *)
Definition satisfies (criteria : doc) (r : doc) : Prop :=
  ∀ k v, criteria !! k = Some v → default VNull (r !! k) = v.

Definition not_found (sku : string) : exn :=
  HTTPException 404 ("Product with SKU '" ++ sku ++ "' not found").

(** The shape shared by the four updating services: update, then either
    report the missing product or read the document back. *)
Definition update_then_read (sku : string) (q : query) (u : update)
    (fs : list (string * doc)) : prog (option doc) :=
  res ← coll (UpdateOne q u fs);
  if (matched_count res =? 0)%Z then Products._not_found sku
  else coll (FindOne (Products.sku_query (VStr sku)) true).

(** FilterSetUpdate on a review sequence: the reviews that satisfy the
    criteria receive the new fields, the others are kept. *)
Definition updated_reviews (filter_criteria new_data : doc) (reviews : list doc)
    : list doc :=
  (λ r, if elem_matches filter_criteria (VDoc r) then set_fields new_data r else r)
    <$> reviews.

(** FilterSetUpdate as the specification words it: for every product and
    every filter criteria the call succeeds with exactly the satisfying
    reviews updated. *)
Definition filter_set_update_claim : Prop :=
  ∀ s sku (filter_criteria new_data : doc) i p (reviews : list doc),
    stored s sku i p → p !! "reviews" = Some (VArr (VDoc <$> reviews)) →
    let p' := <["reviews" :=
                VArr (VDoc <$> updated_reviews filter_criteria new_data reviews)]> p in
    run (Products.update_review_array_filters sku filter_criteria new_data) s
    = (Returned (Some (delete "_id" p')), replaced s i p').

(** The request the array-filter route is declared for. *)
Definition arrayfilters_request (sku : string) (filter_criteria new_data : doc)
    : App.request :=
  App.Request App.PATCH ["products"; sku; "reviews"; "arrayfilters"]
    (VDoc {[ "filter_criteria" := VDoc filter_criteria; "new_data" := VDoc new_data ]}).

(** A PATCH of a product with the JSON object [raw] as its body. *)
Definition patch_product_request (sku : string) (raw : doc) : App.request :=
  App.Request App.PATCH ["products"; sku] (VDoc raw).

(** Create's InternalError as the specification words it: whatever the
    collection, when the check for the sku finds nothing, the insert is
    acknowledged and the lookup that follows finds nothing, Create fails
    with status 500. *)
Definition create_internal_error_claim : Prop :=
  ∀ S (h : handler S) (d : doc) sku s s1 s2 s3 r,
    d !! "sku" = Some sku →
    h _ (FindOne (Products.sku_query sku) false) s = (inr None, s1) →
    h _ (InsertOne d) s1 = (inr r, s2) →
    h _ (FindOne (Products.sku_query sku) true) s2 = (inr None, s3) →
    ∃ detail st,
      run_with h (Products.create_product d) s = (Raised (HTTPException 500 detail), st).

(** *** Vocabulary of the further properties *)

(** What one request may do to the collection. *)
Inductive transition (s s' : store) : Prop :=
  | Unchanged :
      docs s' = docs s → (next_oid s ≤ next_oid s')%N → transition s s'
  | Replaced i p p' :
      docs s !! i = Some p →
      p' !! "sku" = p !! "sku" → p' !! "_id" = p !! "_id" →
      s' = replaced s i p' → transition s s'
  | Inserted sku d :
      has_sku sku d → d !! "_id" = None → absent sku s →
      s' = Store (docs s ++ [<["_id" := VOid (next_oid s)]> d]) (N.succ (next_oid s)) →
      transition s s'
  | Deleted i :
      s' = Store (delete i (docs s)) (next_oid s) → transition s s'.

(** The outcome of a program whose result is passed through [f]. *)
Definition fmap_outcome {A B} (f : A → B) (o : outcome A) : outcome B :=
  match o with Returned a => Returned (f a) | Raised e => Raised e end.

(** The fields an update leaves alone. *)
Definition leaves_field (u : update) (k : string) : Prop :=
  match u with
  | SetFields fields => fields !! k = None
  | Push arr _ | SetPositional arr _ | SetFiltered arr _ _ => k ≠ arr
  end.

(** A response body that shows no storage identifier. *)
Definition hides_id (v : value) : Prop :=
  match v with
  | VDoc d => d !! "_id" = None
  | VArr l => ∀ d, VDoc d ∈ l → d !! "_id" = None
  | _ => True
  end.

(** The statuses the routes declare for success, and the 4xx range. *)
Definition success_status (sc : Z) : Prop := sc = 200 ∨ sc = 201 ∨ sc = 204.

Definition client_error (sc : Z) : Prop := (400 ≤ sc < 500)%Z.

(** The bounds the request models declare. *)
Definition rating_ok (n : Z) : Prop := (1 ≤ n ≤ 5)%Z.

Definition price_ok (x : Z * nat) : Prop := App.decimal_ok x.1 x.2 = true.

(** A POST of a review to the product [sku]. *)
Definition post_review_request (sku : string) (body : value) : App.request :=
  App.Request App.POST ["products"; sku; "reviews"] body.

(** A stored review is a document whose rating is an integer from 1 to 5. *)
Definition review_valid (e : value) : Prop :=
  ∃ r n, e = VDoc r ∧ r !! "rating" = Some (VInt n) ∧ rating_ok n.

Definition doc_valid (d : doc) : Prop :=
  ∀ rs, d !! "reviews" = Some (VArr rs) → Forall review_valid rs.

Definition ratings_valid (s : store) : Prop := Forall doc_valid (docs s).

(** Another client's insert of [d]. *)
Definition other_insert (d : doc) (s : store) : store := (insert_one d s).2.

(** *** Sample data: the catalogue of the specification's example *)

Definition review_r1 : App.Review.t :=
  {| App.Review.review_id := "r1"; App.Review.user_id := "u1";
     App.Review.rating := 5; App.Review.comment := None;
     App.Review.verified := true |}.

Definition review_r2 : App.Review.t :=
  {| App.Review.review_id := "r2"; App.Review.user_id := "u2";
     App.Review.rating := 4; App.Review.comment := Some "fine";
     App.Review.verified := false |}.

Definition widget_body (reviews : list App.Review.t) : App.ProductCreate.t :=
  {| App.ProductCreate.sku := "A1"; App.ProductCreate.name := "Widget";
     App.ProductCreate.price := (999, 2%nat);
     App.ProductCreate.category := None;
     App.ProductCreate.reviews := reviews |}.

(** The widget as the collection holds it. *)
Definition widget (reviews : list App.Review.t) : doc :=
  <["_id" := VOid 0]> (App.ProductCreate.model_dump (widget_body reviews)).

Definition gadget : doc :=
  {[ "_id" := VOid 1; "sku" := VStr "B2"; "name" := VStr "Gadget";
     "price" := VDec 1500 2; "category" := VStr "tools"; "reviews" := VArr [] ]}.

(** A catalogue whose widget has two reviews with the same identifier
    around a third one. *)
Definition catalogue : store :=
  Store [widget [review_r1; review_r2; review_r1]; gadget] 2.

(** A POST creating a product the catalogue does not hold. *)
Definition cog_request : App.request :=
  App.Request App.POST ["products"]
    (VDoc {[ "sku" := VStr "C3"; "name" := VStr "Cog"; "price" := VInt 7 ]}).

End Spec.

(* ================================================================= *)
(** ** Facts about the collection *)

Section collection_facts.
Import Mongo Py Spec.
Open Scope string_scope.

Lemma find_index_Some {A} (f : A → bool) (l : list A) i x :
  find_index f l = Some (i, x) ↔
  l !! i = Some x ∧ f x = true ∧
  ∀ j y, (j < i)%nat → l !! j = Some y → f y = false.
Proof.
  revert i. induction l as [|a l IH]; intros i; simpl.
  - split; [done | by intros [? _]].
  - destruct (f a) eqn:Hfa.
    + split.
      * intros [= <- <-]. split_and!; [done..|]. intros j y Hj. lia.
      * intros (Hi & Hx & Hlt). destruct i as [|i]; simpl in Hi.
        { by simplify_eq. }
        specialize (Hlt 0%nat a ltac:(lia) eq_refl). congruence.
    + rewrite fmap_Some. split.
      * intros ([i' x'] & Hfi & Heq). simpl in Heq. simplify_eq.
        apply IH in Hfi as (Hi & Hx & Hlt).
        split_and!; [done..|]. intros [|j] y Hj Hy; simpl in Hy.
        { by simplify_eq. }
        apply (Hlt j); [lia | done].
      * intros (Hi & Hx & Hlt). destruct i as [|i]; simpl in Hi.
        { simplify_eq. congruence. }
        exists (i, x). split; [|done]. apply IH.
        split_and!; [done..|]. intros j y Hj Hy.
        apply (Hlt (S j)); [lia | done].
Qed.

Lemma find_index_None {A} (f : A → bool) (l : list A) :
  find_index f l = None ↔ ∀ x, x ∈ l → f x = false.
Proof.
  induction l as [|a l IH]; simpl.
  - split; [|done]. intros _ x Hx. by apply elem_of_nil in Hx.
  - destruct (f a) eqn:Hfa.
    + split; [done|]. intros H. specialize (H a ltac:(left)). congruence.
    + rewrite fmap_None, IH. split.
      * intros H x [->|Hx]%elem_of_cons; [done|]. by apply H.
      * intros H x Hx. apply H. by right.
Qed.

Lemma field_eq_str (o : option value) (s : string) :
  field_eq o (VStr s) = true ↔ o = Some (VStr s).
Proof.
  unfold field_eq. rewrite bool_decide_eq_true.
  destruct o as [v|]; simpl; split; intros H; by simplify_eq.
Qed.

Lemma matches_sku_query sku d :
  matches (Products.sku_query (VStr sku)) d = true ↔ has_sku sku d.
Proof.
  unfold matches, Products.sku_query, has_sku. simpl.
  rewrite andb_true_r. apply field_eq_str.
Qed.

Lemma matches_sku_query_false sku d :
  matches (Products.sku_query (VStr sku)) d = false ↔ ¬ has_sku sku d.
Proof.
  rewrite <- matches_sku_query. destruct (matches _ d); naive_solver.
Qed.

Lemma stored_find_first s sku i p :
  stored s sku i p ↔ find_first (Products.sku_query (VStr sku)) s = Some (i, p).
Proof.
  unfold stored, find_first. rewrite find_index_Some, matches_sku_query.
  split; intros (H1 & H2 & H3); split_and!; try done.
  - intros j y Hj Hy. apply matches_sku_query_false. eauto.
  - intros j q Hj Hq. apply matches_sku_query_false. eauto.
Qed.

Lemma absent_find_first s sku :
  absent sku s ↔ find_first (Products.sku_query (VStr sku)) s = None.
Proof.
  unfold absent, find_first. rewrite find_index_None.
  split; intros H d Hd; apply matches_sku_query_false; by apply H.
Qed.

Lemma stored_or_absent s sku :
  (∃ i p, stored s sku i p) ∨ absent sku s.
Proof.
  destruct (find_first (Products.sku_query (VStr sku)) s) as [[i p]|] eqn:H.
  - left. exists i, p. by apply stored_find_first.
  - right. by apply absent_find_first.
Qed.

Lemma stored_not_absent s sku i p : stored s sku i p → ¬ absent sku s.
Proof.
  intros (Hi & Hp & _) Habs. apply (Habs p); [|done].
  by eapply list_elem_of_lookup_2.
Qed.

Lemma has_sku_nonempty sku d : has_sku sku d → delete "_id" d ≠ ∅ ∧ d ≠ ∅.
Proof.
  unfold has_sku. intros H. split; intros E.
  - assert (delete "_id" d !! "sku" = Some (VStr sku)) as H'.
    { by rewrite lookup_delete_ne. }
    rewrite E, lookup_empty in H'. done.
  - rewrite E, lookup_empty in H. done.
Qed.

(** A replaced document that keeps its sku is what a lookup by that sku
    reaches afterwards. *)
Lemma stored_replaced s sku i p p' :
  stored s sku i p → has_sku sku p' → stored (replaced s i p') sku i p'.
Proof.
  intros (Hi & Hp & Hlt) Hp'. unfold stored, replaced. simpl. split_and!.
  - apply list_lookup_insert_eq. by eapply lookup_lt_Some.
  - done.
  - intros j q Hj Hq. rewrite list_lookup_insert_ne in Hq by lia. eauto.
Qed.

Lemma find_one_stored s sku i p ex :
  stored s sku i p →
  find_one (Products.sku_query (VStr sku)) ex s = Some (project ex p).
Proof.
  intros H%stored_find_first. unfold find_one. by rewrite H.
Qed.

Lemma find_one_absent s sku ex :
  absent sku s → find_one (Products.sku_query (VStr sku)) ex s = None.
Proof.
  intros H%absent_find_first. unfold find_one. by rewrite H.
Qed.

End collection_facts.

(* ================================================================= *)
(** ** Running the services *)

Section service_runs.
Import Mongo Py Spec.
Open Scope string_scope.

Lemma update_one_unmatched q u fs s :
  parse_update u fs = None → find_first q s = None →
  update_one q u fs s = (inr {| matched_count := 0; modified_count := 0 |}, s).
Proof. intros Hp Hf. unfold update_one. by rewrite Hp, Hf. Qed.

Lemma update_one_matched q u fs s i p p' :
  parse_update u fs = None → find_first q s = Some (i, p) →
  apply_update q u fs p = inr p' →
  ∃ m, update_one q u fs s =
       (inr {| matched_count := 1; modified_count := m |}, replaced s i p').
Proof. intros Hp Hf Ha. unfold update_one. rewrite Hp, Hf, Ha. eauto. Qed.

Lemma run_update_unmatched sku q u fs s :
  parse_update u fs = None → find_first q s = None →
  run (update_then_read sku q u fs) s = (Raised (not_found sku), s).
Proof.
  intros Hp Hf. unfold run, update_then_read. simpl.
  by rewrite (update_one_unmatched _ _ _ _ Hp Hf).
Qed.

Lemma run_update_matched sku q u fs s i p p' :
  parse_update u fs = None → find_first q s = Some (i, p) →
  apply_update q u fs p = inr p' →
  stored s sku i p → has_sku sku p' →
  run (update_then_read sku q u fs) s
  = (Returned (Some (delete "_id" p')), replaced s i p').
Proof.
  intros Hp Hf Ha Hst Hsku. unfold run, update_then_read. simpl.
  destruct (update_one_matched _ _ _ _ _ _ _ Hp Hf Ha) as [m ->]. simpl.
  by rewrite (find_one_stored _ _ _ _ true (stored_replaced _ _ _ _ _ Hst Hsku)).
Qed.

(** A query that asks for the sku and more finds nothing where the sku is
    absent. *)
Lemma find_first_absent_more sku c s :
  absent sku s →
  find_first (FieldEq "sku" (VStr sku) :: c) s = None.
Proof.
  intros Habs. unfold find_first. apply find_index_None. intros d Hd.
  unfold matches. simpl. apply andb_false_iff. left.
  destruct (field_eq (d !! "sku") (VStr sku)) eqn:E; [|done].
  apply field_eq_str in E. by destruct (Habs d Hd).
Qed.

Lemma run_get_product_absent sku s :
  absent sku s → run (Products.get_product sku) s = (Raised (not_found sku), s).
Proof.
  intros H. unfold run, Products.get_product. simpl.
  by rewrite (find_one_absent _ _ _ H).
Qed.

Lemma run_get_product_stored sku s i p :
  stored s sku i p →
  run (Products.get_product sku) s = (Returned (Some (delete "_id" p)), s).
Proof.
  intros H. unfold run, Products.get_product. simpl.
  rewrite (find_one_stored _ _ _ _ _ H). simpl.
  destruct H as (_ & Hsku & _). apply has_sku_nonempty in Hsku as [Hne _].
  by rewrite bool_decide_eq_false_2.
Qed.

Lemma run_delete_product_absent sku s :
  absent sku s → run (Products.delete_product sku) s = (Raised (not_found sku), s).
Proof.
  intros H%absent_find_first. unfold run, Products.delete_product. simpl.
  unfold delete_one. by rewrite H.
Qed.

Lemma run_update_product_absent sku ud s :
  absent sku s →
  run (Products.update_product sku ud) s = (Raised (not_found sku), s).
Proof.
  intros H. apply (run_update_unmatched sku); [done|]. by apply absent_find_first.
Qed.

Lemma run_add_review_absent sku rv s :
  absent sku s →
  run (Products.add_review sku rv) s = (Raised (not_found sku), s).
Proof.
  intros H. apply (run_update_unmatched sku); [done|]. by apply absent_find_first.
Qed.

Lemma run_update_review_positional_absent sku rid ud s :
  absent sku s →
  run (Products.update_review_positional sku rid ud) s = (Raised (not_found sku), s).
Proof.
  intros H. apply (run_update_unmatched sku); [done|].
  by apply find_first_absent_more.
Qed.

Lemma run_create_product_existing d sku q s :
  d !! "sku" = Some (VStr sku) → q ∈ docs s → has_sku sku q →
  run (Products.create_product d) s
  = (Raised (HTTPException 409 "SKU already exists"), s).
Proof.
  intros Hd Hq Hsku. unfold run, Products.create_product. rewrite Hd. simpl.
  destruct (stored_or_absent s sku) as [(i & p & Hst)|Habs].
  - rewrite (find_one_stored _ _ _ _ false Hst). simpl.
    destruct Hst as (_ & Hp & _). apply has_sku_nonempty in Hp as [_ Hne].
    by rewrite bool_decide_eq_false_2.
  - by destruct (Habs q Hq).
Qed.

Lemma insert_one_fresh d s :
  d !! "_id" = None → fresh_ids s →
  insert_one d s
  = (inr {| inserted_id := VOid (next_oid s) |},
     Store (docs s ++ [<["_id" := VOid (next_oid s)]> d]) (N.succ (next_oid s))).
Proof.
  intros Hid Hfresh. unfold insert_one. rewrite Hid.
  rewrite lookup_insert_eq. simpl.
  destruct (existsb _ (docs s)) eqn:E; [|done].
  apply existsb_exists in E as (e & He & Hoid).
  apply bool_decide_eq_true in Hoid.
  apply list_elem_of_In in He. specialize (Hfresh e _ He Hoid). lia.
Qed.

Lemma find_first_app_new q s d :
  find_first q s = None → matches q d = true →
  find_first q (Store (docs s ++ [d]) (N.succ (next_oid s)))
  = Some (length (docs s), d).
Proof.
  unfold find_first. simpl. intros Hnone Hd. apply find_index_Some. split_and!.
  - by rewrite lookup_app_r, Nat.sub_diag.
  - done.
  - intros j y Hj Hy. rewrite lookup_app_l in Hy by done.
    eapply find_index_None; [exact Hnone|]. by eapply list_elem_of_lookup_2.
Qed.

(** Creating a product whose sku is new stores it under a fresh [_id] and
    returns it without that [_id]. *)
Lemma run_create_product_new d sku s :
  d !! "sku" = Some (VStr sku) → d !! "_id" = None →
  absent sku s → fresh_ids s →
  run (Products.create_product d) s
  = (Returned (Some d),
     Store (docs s ++ [<["_id" := VOid (next_oid s)]> d]) (N.succ (next_oid s))).
Proof.
  intros Hd Hid Habs Hfresh. unfold run, Products.create_product.
  rewrite Hd. simpl. rewrite (find_one_absent _ _ false Habs). simpl.
  rewrite (insert_one_fresh _ _ Hid Hfresh). simpl.
  unfold find_one. rewrite find_first_app_new.
  - simpl. by rewrite delete_insert_eq, delete_id.
  - by apply absent_find_first.
  - apply matches_sku_query. unfold has_sku. by rewrite lookup_insert_ne.
Qed.

Lemma stored_app_new d sku s :
  d !! "sku" = Some (VStr sku) → absent sku s →
  stored (Store (docs s ++ [<["_id" := VOid (next_oid s)]> d]) (N.succ (next_oid s)))
    sku (length (docs s)) (<["_id" := VOid (next_oid s)]> d).
Proof.
  intros Hd Habs. apply stored_find_first. apply find_first_app_new.
  - by apply absent_find_first.
  - apply matches_sku_query. unfold has_sku. by rewrite lookup_insert_ne.
Qed.

Lemma run_delete_product_stored sku s i p :
  stored s sku i p →
  run (Products.delete_product sku) s
  = (Returned {[ "message" := VStr ("Product '" ++ sku ++ "' deleted successfully") ]},
     Store (delete i (docs s)) (next_oid s)).
Proof.
  intros H%stored_find_first. unfold run, Products.delete_product. simpl.
  unfold delete_one. by rewrite H.
Qed.

Lemma run_update_product_stored sku ud s i p :
  stored s sku i p → ud !! "_id" = None → ud !! "sku" = None →
  run (Products.update_product sku ud) s
  = (Returned (Some (delete "_id" (ud ∪ p))), replaced s i (ud ∪ p)).
Proof.
  intros Hst Hid Hsku.
  apply (run_update_matched sku _ _ _ _ i p); try done.
  - by apply stored_find_first.
  - simpl. by rewrite Hid.
  - destruct Hst as (_ & Hp & _). unfold has_sku.
    by rewrite lookup_union_r.
Qed.

Lemma run_add_review_stored sku rv s i p rs :
  stored s sku i p → p !! "reviews" = Some (VArr rs) →
  run (Products.add_review sku rv) s
  = (Returned (Some (delete "_id" (<["reviews" := VArr (rs ++ [VDoc rv])]> p))),
     replaced s i (<["reviews" := VArr (rs ++ [VDoc rv])]> p)).
Proof.
  intros Hst Hrs.
  apply (run_update_matched sku _ _ _ _ i p); try done.
  - by apply stored_find_first.
  - simpl. by rewrite Hrs.
  - destruct Hst as (_ & Hp & _). unfold has_sku.
    by rewrite lookup_insert_ne.
Qed.

(** What the PATCH handler passes on: the non-null fields of the body. *)
Lemma update_data_lookup_Some (body : App.ProductUpdate.t) k v :
  filter App.not_none (App.ProductUpdate.model_dump body) !! k = Some v →
  v ≠ VNull ∧ (k = "name" ∨ k = "price" ∨ k = "category").
Proof.
  intros [Hk Hv]%map_lookup_filter_Some. split; [exact Hv|].
  unfold App.ProductUpdate.model_dump in Hk.
  repeat (apply lookup_insert_Some in Hk as [[<- _]|[_ Hk]]; [tauto|]).
  apply lookup_singleton_Some in Hk as [<- _]. tauto.
Qed.

Lemma update_data_lookup_other (body : App.ProductUpdate.t) k :
  k ≠ "name" → k ≠ "price" → k ≠ "category" →
  filter App.not_none (App.ProductUpdate.model_dump body) !! k = None.
Proof.
  intros H1 H2 H3.
  destruct (filter _ _ !! k) as [v|] eqn:E; [|done].
  apply update_data_lookup_Some in E as [_ [?|[?|?]]]; done.
Qed.

Lemma update_data_name (body : App.ProductUpdate.t) :
  filter App.not_none (App.ProductUpdate.model_dump body) !! "name"
  = VStr <$> App.ProductUpdate.name body.
Proof. destruct body as [[n|] [[u d]|] [c|]]; reflexivity. Qed.

Lemma update_data_price (body : App.ProductUpdate.t) :
  filter App.not_none (App.ProductUpdate.model_dump body) !! "price"
  = (λ x, VDec x.1 x.2) <$> App.ProductUpdate.price body.
Proof. destruct body as [[n|] [[u d]|] [c|]]; reflexivity. Qed.

Lemma update_data_category (body : App.ProductUpdate.t) :
  filter App.not_none (App.ProductUpdate.model_dump body) !! "category"
  = VStr <$> App.ProductUpdate.category body.
Proof. destruct body as [[n|] [[u d]|] [c|]]; reflexivity. Qed.

(** [$set] keeps every field it is not given and overwrites the others. *)
Lemma set_fields_lookup fields d k :
  set_fields fields d !! k = from_option Some (d !! k) (fields !! k).
Proof.
  unfold set_fields. destruct (fields !! k) as [v|] eqn:E; simpl.
  - by apply lookup_union_Some_l.
  - by rewrite lookup_union_r.
Qed.

Lemma elem_field_eq_review_id rid e :
  elem_field_eq "review_id" (VStr rid) e = true ↔ has_review_id rid e.
Proof. unfold elem_field_eq, has_review_id. apply field_eq_str. Qed.

Lemma has_review_id_doc rid e :
  has_review_id rid e → ∃ r, e = VDoc r ∧ r !! "review_id" = Some (VStr rid).
Proof.
  unfold has_review_id. destruct e; simpl; try (by rewrite lookup_empty).
  eauto.
Qed.

Lemma positional_query_matches sku rid d rs :
  d !! "reviews" = Some (VArr rs) →
  matches (positional_query sku rid) d = true ↔
  has_sku sku d ∧ ∃ e, e ∈ rs ∧ has_review_id rid e.
Proof.
  intros Hrs. unfold matches. simpl. rewrite Hrs, andb_true_r.
  rewrite andb_true_iff, field_eq_str, existsb_exists.
  unfold has_sku. split; intros [H1 (e & He & Hid)]; (split; [done|]); exists e.
  - by rewrite list_elem_of_In, <- elem_field_eq_review_id.
  - by rewrite <- list_elem_of_In, elem_field_eq_review_id.
Qed.

Lemma positional_index_first rid sku rs j e :
  rs !! j = Some e → has_review_id rid e →
  (∀ j' e', (j' < j)%nat → rs !! j' = Some e' → ¬ has_review_id rid e') →
  positional_index "reviews" (positional_query sku rid) rs = Some (j, e).
Proof.
  intros Hj He Hfirst. unfold positional_index. simpl.
  apply find_index_Some. split_and!; [done| |].
  - rewrite andb_true_r. by apply elem_field_eq_review_id.
  - intros j' e' Hlt He'. rewrite andb_true_r.
    destruct (elem_field_eq _ _ e') eqn:E; [|done].
    apply elem_field_eq_review_id in E. by destruct (Hfirst j' e' Hlt He').
Qed.

Lemma run_update_review_positional_stored sku rid ud s i p rs j r :
  stored s sku i p → p !! "reviews" = Some (VArr rs) →
  rs !! j = Some (VDoc r) → r !! "review_id" = Some (VStr rid) →
  (∀ j' e, (j' < j)%nat → rs !! j' = Some e → ¬ has_review_id rid e) →
  let p' := <["reviews" := VArr (<[j := VDoc (set_fields ud r)]> rs)]> p in
  run (Products.update_review_positional sku rid ud) s
  = (Returned (Some (delete "_id" p')), replaced s i p').
Proof.
  intros Hst Hrs Hj Hr Hfirst p'.
  assert (has_review_id rid (VDoc r)) as Hid by done.
  pose proof Hst as (Hi & Hsku & Hlt).
  apply (run_update_matched sku _ _ _ _ i p); try done.
  - apply find_index_Some. split_and!; [done| |].
    + apply (positional_query_matches sku rid p rs Hrs). split; [done|].
      exists (VDoc r). split; [|done]. by eapply list_elem_of_lookup_2.
    + intros j' q Hj' Hq. unfold matches. simpl. apply andb_false_iff. left.
      destruct (field_eq _ _) eqn:E; [|done]. apply field_eq_str in E.
      by destruct (Hlt j' q Hj' Hq).
  - unfold apply_update. case_bool_decide as Hud.
    + f_equal. unfold p'. subst ud. unfold set_fields.
      rewrite (left_id_L ∅ (∪)). rewrite list_insert_id by done.
      by rewrite insert_id.
    + rewrite Hrs.
      rewrite (positional_index_first rid sku rs j (VDoc r) Hj Hid Hfirst).
      done.
  - unfold has_sku, p'. by rewrite lookup_insert_ne.
Qed.

Lemma run_update_review_positional_no_review sku rid ud s i p rs :
  unique_skus s → stored s sku i p → p !! "reviews" = Some (VArr rs) →
  (∀ e, e ∈ rs → ¬ has_review_id rid e) →
  run (Products.update_review_positional sku rid ud) s = (Raised (not_found sku), s).
Proof.
  intros Huniq (Hi & Hsku & _) Hrs Hnone.
  apply (run_update_unmatched sku); [done|].
  apply find_index_None. intros d Hd.
  destruct (matches _ d) eqn:E; [|done]. exfalso.
  apply list_elem_of_lookup_1 in Hd as [i' Hi'].
  assert (has_sku sku d) as Hd.
  { unfold matches in E. simpl in E. apply andb_true_iff in E as [E _].
    by apply field_eq_str in E. }
  assert (i' = i) as -> by (by eapply Huniq). simplify_eq.
  apply (positional_query_matches sku rid p rs Hrs) in E as (_ & e & He & Hid).
  by destruct (Hnone e He).
Qed.

Lemma elem_matches_satisfies fc r :
  elem_matches fc (VDoc r) = true ↔ satisfies fc r.
Proof.
  unfold elem_matches, satisfies, field_eq. rewrite bool_decide_eq_true.
  unfold map_Forall. simpl.
  split; intros H k v Hk; specialize (H k v Hk).
  - by apply bool_decide_eq_true in H.
  - by apply bool_decide_eq_true.
Qed.

Lemma set_filtered_docs fc nd (ds : list doc) :
  set_filtered fc nd (VDoc <$> ds) = inr (VDoc <$> updated_reviews fc nd ds).
Proof.
  induction ds as [|r ds IH]; [done|].
  rewrite fmap_cons. cbn [set_filtered]. rewrite IH.
  unfold set_filtered_elem, updated_reviews. rewrite !fmap_cons.
  by destruct (elem_matches fc (VDoc r)).
Qed.

Lemma parse_filtered_ok (fc nd : doc) :
  fc ≠ ∅ → nd ≠ ∅ →
  parse_update (SetFiltered "reviews" "rev" nd) [("rev", fc)] = None.
Proof.
  intros Hfc Hnd. unfold parse_update. simpl.
  by rewrite !bool_decide_eq_false_2.
Qed.

Lemma updated_reviews_none fc nd ds :
  (∀ r, r ∈ ds → ¬ satisfies fc r) → updated_reviews fc nd ds = ds.
Proof.
  intros H. unfold updated_reviews. rewrite <- (list_fmap_id ds) at 2.
  apply list_fmap_ext. intros j r Hr.
  destruct (elem_matches fc (VDoc r)) eqn:E; [|done].
  apply elem_matches_satisfies in E. destruct (H r); [|done].
  by eapply list_elem_of_lookup_2.
Qed.

Lemma replaced_same s i p : docs s !! i = Some p → replaced s i p = s.
Proof.
  intros H. unfold replaced. rewrite list_insert_id by done. by destruct s.
Qed.

Lemma run_update_review_array_filters_stored sku fc nd s i p ds :
  fc ≠ ∅ → nd ≠ ∅ →
  stored s sku i p → p !! "reviews" = Some (VArr (VDoc <$> ds)) →
  let p' := <["reviews" := VArr (VDoc <$> updated_reviews fc nd ds)]> p in
  run (Products.update_review_array_filters sku fc nd) s
  = (Returned (Some (delete "_id" p')), replaced s i p').
Proof.
  intros Hfc Hnd Hst Hrs p'.
  apply (run_update_matched sku _ _ _ _ i p); try done.
  - by apply parse_filtered_ok.
  - by apply stored_find_first.
  - unfold apply_update. rewrite Hrs.
    change (filter_for "rev" [("rev", fc)]) with fc.
    by rewrite set_filtered_docs.
  - destruct Hst as (_ & Hp & _). unfold has_sku, p'. by rewrite lookup_insert_ne.
Qed.

Lemma run_update_review_array_filters_absent sku fc nd s :
  fc ≠ ∅ → nd ≠ ∅ → absent sku s →
  run (Products.update_review_array_filters sku fc nd) s = (Raised (not_found sku), s).
Proof.
  intros Hfc Hnd Habs. apply (run_update_unmatched sku).
  - by apply parse_filtered_ok.
  - by apply absent_find_first.
Qed.

(** Whatever the update does to an existing product, the outcome is not a
    NotFound. *)
Lemma run_update_then_read_404 sku u fs s detail st :
  run (update_then_read sku (Products.sku_query (VStr sku)) u fs) s
  = (Raised (HTTPException 404 detail), st) → absent sku s.
Proof.
  intros Hrun. destruct (stored_or_absent s sku) as [(i & p & Hst)|]; [|done].
  exfalso. revert Hrun. unfold run, update_then_read. simpl. unfold update_one.
  destruct (parse_update u fs); [done|].
  rewrite (proj1 (stored_find_first _ _ _ _) Hst).
  destruct (apply_update _ u fs p) as [err|p']; [done|]. simpl.
  done.
Qed.

End service_runs.

(* ================================================================= *)
(** ** Routing and validation *)

Section routing.
Import Mongo Py App Spec.
Open Scope string_scope.

Lemma arrayfilters_path_is_positional_path path ps :
  match_path [Lit "products"; Param "sku"; Lit "reviews"; Lit "arrayfilters"] path = Some ps →
  is_Some (match_path [Lit "products"; Param "sku"; Lit "reviews"; Param "review_id"] path).
Proof.
  destruct path as [|a [|b [|c [|d [|e path]]]]]; simpl; try done;
    repeat (case_bool_decide; simpl; try done); eauto.
  congruence.
Qed.

(** The route that takes a request is the first one, in declaration
    order, whose template and method both match. *)
Lemma dispatch_in_Matched rs m path partial r ps :
  dispatch_in rs m path partial = Matched r ps →
  ∃ pre post,
    rs = (pre ++ r :: post)%list ∧
    match_path (route_path r) path = Some ps ∧ route_method r = m ∧
    Forall (λ r', match_path (route_path r') path = None ∨ route_method r' ≠ m) pre.
Proof.
  revert partial. induction rs as [|r0 rs IH]; intros partial; simpl.
  - by destruct partial.
  - destruct (match_path (route_path r0) path) as [ps0|] eqn:E.
    + case_bool_decide as Hm.
      * intros [= <- <-]. exists [], rs. by split_and!.
      * intros (pre & post & -> & ? & ? & ?)%IH.
        exists (r0 :: pre), post. split_and!; try done.
        constructor; [by right | done].
    + intros (pre & post & -> & ? & ? & ?)%IH.
      exists (r0 :: pre), post. split_and!; try done.
      constructor; [by left | done].
Qed.

Lemma dispatch_never_arrayfilters m path r ps :
  dispatch m path = Matched r ps → route_endpoint r ≠ PatchReviewWithArrayfilter.
Proof.
  intros (pre & post & Hrs & Hpath & Hm & Hpre)%dispatch_in_Matched Hend.
  unfold routes in Hrs.
  do 8 (destruct pre as [|? pre]; [by simplify_eq/=|];
        apply (inj2 cons) in Hrs as [<- Hrs]).
  destruct pre as [|? pre]; [|by destruct pre].
  simplify_eq/=.
  apply arrayfilters_path_is_positional_path in Hpath as [ps' Hps'].
  destruct (Forall_lookup_1 _ _ 7%nat _ Hpre eq_refl) as [?|?].
  - simpl in *. congruence.
  - done.
Qed.

Lemma dispatch_arrayfilters_path sku :
  sku ≠ "" →
  dispatch PATCH ["products"; sku; "reviews"; "arrayfilters"]
  = Matched (Route PATCH [Lit "products"; Param "sku"; Lit "reviews"; Param "review_id"]
               UpdateReviewPositional 200)
      [("sku", sku); ("review_id", "arrayfilters")].
Proof.
  intros Hsku. unfold dispatch, routes. simpl.
  by rewrite (bool_decide_eq_false_2 _ Hsku).
Qed.

Lemma arrayfilters_body_as_review_update (fc nd : doc) :
  ReviewUpdate.validate (VDoc {[ "filter_criteria" := VDoc fc; "new_data" := VDoc nd ]})
  = Some {| ReviewUpdate.user_id := None; ReviewUpdate.rating := None;
            ReviewUpdate.comment := None; ReviewUpdate.verified := None |}.
Proof. reflexivity. Qed.


Lemma dispatch_patch_product sku :
  dispatch PATCH ["products"; sku]
  = if bool_decide (sku = "") then NoRoute
    else Matched (Route PATCH [Lit "products"; Param "sku"] UpdateProduct 200)
           [("sku", sku)].
Proof. unfold dispatch, routes. simpl. by case_bool_decide. Qed.

Lemma create_product_flow S (h : handler S) (d : doc) sku s s1 s2 o r :
  d !! "sku" = Some sku →
  h _ (FindOne (Products.sku_query sku) false) s = (inr o, s1) →
  truthy_doc o = false →
  h _ (InsertOne d) s1 = (inr r, s2) →
  run_with h (Products.create_product d) s
  = if truthy (inserted_id r)
    then match h _ (FindOne (Products.sku_query sku) true) s2 with
         | (inl e, s3) => (Raised e, s3)
         | (inr found, s3) => (Returned found, s3)
         end
    else (Raised (HTTPException 500 "Failed to insert product"), s2).
Proof.
  intros Hd Hpre Ho Hins. unfold Products.create_product. rewrite Hd. simpl.
  rewrite Hpre, Ho. simpl. rewrite Hins. destruct (truthy (inserted_id r)); simpl; [|done].
  by destruct (h _ _ s2) as [[e|found] s3].
Qed.


Lemma validate_null_absent (raw : doc) k :
  raw !! k = Some VNull →
  ProductUpdate.validate (VDoc raw) = ProductUpdate.validate (VDoc (delete k raw)).
Proof.
  intros Hnull. unfold ProductUpdate.validate.
  assert (∀ T (f : option value → option T) k',
            optional f (delete k raw !! k') = optional f (raw !! k')) as Hopt.
  { intros T f k'. destruct (decide (k = k')) as [<-|Hne].
    - by rewrite lookup_delete_eq, Hnull.
    - by rewrite lookup_delete_ne. }
  by rewrite !Hopt.
Qed.

Lemma validate_Some (raw : doc) body :
  ProductUpdate.validate (VDoc raw) = Some body →
  optional req_str (raw !! "name") = Some (ProductUpdate.name body) ∧
  optional req_price (raw !! "price") = Some (ProductUpdate.price body) ∧
  optional req_str (raw !! "category") = Some (ProductUpdate.category body).
Proof.
  unfold ProductUpdate.validate. intros H.
  destruct (optional req_str (raw !! "name")) as [n|]; simpl in H; [|done].
  destruct (optional req_price (raw !! "price")) as [p|]; simpl in H; [|done].
  destruct (optional req_str (raw !! "category")) as [c|]; simpl in H; [|done].
  by simplify_eq.
Qed.

Lemma validate_null_field (raw : doc) k body :
  raw !! k = Some VNull → ProductUpdate.validate (VDoc raw) = Some body →
  filter not_none (ProductUpdate.model_dump body) !! k = None.
Proof.
  intros Hnull (Hn & Hp & Hc)%validate_Some.
  destruct (filter _ _ !! k) as [v|] eqn:E; [|done]. exfalso.
  destruct (update_data_lookup_Some _ _ _ E) as [_ Hk].
  destruct Hk as [-> | [-> | ->]].
  - rewrite Hnull in Hn. rewrite update_data_name in E.
    injection Hn as Hn. by rewrite <- Hn in E.
  - rewrite Hnull in Hp. rewrite update_data_price in E.
    injection Hp as Hp. by rewrite <- Hp in E.
  - rewrite Hnull in Hc. rewrite update_data_category in E.
    injection Hc as Hc. by rewrite <- Hc in E.
Qed.

End routing.

(* ================================================================= *)
(** ** How one request moves the collection *)

Section request_effects.
Import Mongo Py App Spec.
Open Scope string_scope.

Lemma run_fmap {A B} (f : A → B) (p : prog A) s :
  run (f <$> p) s = (fmap_outcome f (run p s).1, (run p s).2).
Proof.
  unfold run. revert s. induction p as [a|e|X c k IH]; intros s; simpl; try done.
  destruct (exec X c s) as [[e|x] s1]; simpl; [done|]. apply IH.
Qed.

Lemma apply_update_leaves q u fs p p' k :
  apply_update q u fs p = inr p' → leaves_field u k → p' !! k = p !! k.
Proof.
  destruct u as [fields|arr v|arr fields|arr ident fields]; simpl; intros H Hk.
  - assert (p' = set_fields fields p) as ->.
    { destruct (fields !! "_id"); [case_bool_decide|]; by simplify_eq. }
    by rewrite set_fields_lookup, Hk.
  - destruct (p !! arr) as [[]|]; simplify_eq; by rewrite lookup_insert_ne.
  - case_bool_decide; [by simplify_eq|].
    destruct (p !! arr) as [[]|]; try done.
    destruct (positional_index _ _ _) as [[i e]|]; [|done].
    destruct (set_elem fields e); simplify_eq. by rewrite lookup_insert_ne.
  - destruct (p !! arr) as [[]|]; try done.
    destruct (set_filtered _ _ _); simplify_eq. by rewrite lookup_insert_ne.
Qed.

Lemma run_update_then_read_cases sku q u fs s :
  (run (update_then_read sku q u fs) s).2 = s ∧
    ((run (update_then_read sku q u fs) s).1 = Raised (not_found sku) ∨
     ∃ e, (run (update_then_read sku q u fs) s).1 = Raised (PyMongoError e))
  ∨ ∃ i p p',
      find_first q s = Some (i, p) ∧ apply_update q u fs p = inr p' ∧
      run (update_then_read sku q u fs) s
      = (Returned (find_one (Products.sku_query (VStr sku)) true (replaced s i p')),
         replaced s i p').
Proof.
  unfold run, update_then_read. simpl. unfold update_one.
  destruct (parse_update u fs) as [e|]; simpl; [left; eauto|].
  destruct (find_first q s) as [[i p]|]; simpl; [|left; eauto].
  destruct (apply_update q u fs p) as [e|p'] eqn:E; simpl; [left; eauto|].
  right. by exists i, p, p'.
Qed.

Lemma find_first_lookup q s i p : find_first q s = Some (i, p) → docs s !! i = Some p.
Proof. unfold find_first. by intros (? & _)%find_index_Some. Qed.

Lemma transition_update_then_read sku q u fs s :
  leaves_field u "sku" → leaves_field u "_id" →
  transition s (run (update_then_read sku q u fs) s).2.
Proof.
  intros Hsku Hid.
  destruct (run_update_then_read_cases sku q u fs s)
    as [[-> _]|(i & p & p' & Hf & Ha & ->)].
  - by apply Unchanged.
  - simpl. apply (Replaced _ _ i p p').
    + by eapply find_first_lookup.
    + by eapply apply_update_leaves.
    + by eapply apply_update_leaves.
    + done.
Qed.

Lemma unique_skus_transition s s' :
  transition s s' → unique_skus s → unique_skus s'.
Proof.
  intros [Hd _|i p p' Hi Hsku _ ->|sku d Hd _ Habs ->|i ->] Huniq.
  - unfold unique_skus. rewrite Hd. apply Huniq.
  - intros a b x y k Ha Hb Hx Hy. simpl in Ha, Hb.
    assert (∀ c z, <[i:=p']> (docs s) !! c = Some z → has_sku k z →
                   ∃ z', docs s !! c = Some z' ∧ has_sku k z') as Hback.
    { intros c z Hc Hz. destruct (decide (c = i)) as [->|Hne].
      - exists p. split; [done|]. rewrite list_lookup_insert_eq in Hc
          by (by eapply lookup_lt_Some). simplify_eq. unfold has_sku in *. congruence.
      - rewrite list_lookup_insert_ne in Hc by done. eauto. }
    destruct (Hback a x Ha Hx) as (x' & ? & ?).
    destruct (Hback b y Hb Hy) as (y' & ? & ?).
    by eapply Huniq.
  - intros a b x y k Ha Hb Hx Hy. simpl in Ha, Hb.
    assert (∀ c z, (docs s ++ [<["_id":=VOid (next_oid s)]> d])%list !! c = Some z →
                   has_sku k z →
                   (docs s !! c = Some z) ∨ (c = length (docs s) ∧ k = sku)) as Hcase.
    { intros c z Hc Hz. apply lookup_app_Some in Hc as [Hc|[Hge Hc]]; [by left|].
      right. apply list_lookup_singleton_Some in Hc as [Hc <-].
      split; [lia|]. unfold has_sku in Hz, Hd. rewrite lookup_insert_ne in Hz by done.
      congruence. }
    destruct (Hcase a x Ha Hx) as [Ha'|[-> ->]], (Hcase b y Hb Hy) as [Hb'|[-> Hk]].
    + by eapply Huniq.
    + subst k. destruct (Habs x); [|done]. by eapply list_elem_of_lookup_2.
    + destruct (Habs y); [|done]. by eapply list_elem_of_lookup_2.
    + done.
  - intros a b x y k Ha Hb Hx Hy. simpl in Ha, Hb.
    assert (∀ c z, delete i (docs s) !! c = Some z →
                   docs s !! (if decide (c < i)%nat then c else S c) = Some z) as Hdel.
    { intros c z Hc. case_decide.
      - by rewrite list_lookup_delete_lt in Hc.
      - by rewrite list_lookup_delete_ge in Hc by lia. }
    pose proof (Huniq _ _ _ _ k (Hdel a x Ha) (Hdel b y Hb) Hx Hy) as E.
    repeat case_decide; lia.
Qed.

Lemma fresh_ids_transition s s' :
  transition s s' → fresh_ids s → fresh_ids s'.
Proof.
  intros [Hd Hn|i p p' Hi _ Hid ->|sku d _ Hd _ ->|i ->] Hfresh.
  - intros e n He Hen. rewrite Hd in He. specialize (Hfresh e n He Hen). lia.
  - intros e n He Hen. simpl in *.
    apply list_elem_of_lookup_1 in He as [c Hc].
    destruct (decide (c = i)) as [->|Hne].
    + rewrite list_lookup_insert_eq in Hc by (by eapply lookup_lt_Some).
      simplify_eq. apply (Hfresh p n); [by eapply list_elem_of_lookup_2 | congruence].
    + rewrite list_lookup_insert_ne in Hc by done.
      apply (Hfresh e n); [by eapply list_elem_of_lookup_2 | done].
  - intros e n He Hen. simpl in *.
    apply elem_of_app in He as [He|He].
    + specialize (Hfresh e n He Hen). lia.
    + apply list_elem_of_singleton in He. subst e.
      rewrite lookup_insert_eq in Hen. simplify_eq. lia.
  - intros e n He Hen. simpl in *. apply (Hfresh e n); [|done].
    apply list_elem_of_lookup_1 in He as [c Hc].
    destruct (decide (c < i)%nat).
    + rewrite list_lookup_delete_lt in Hc by done. by eapply list_elem_of_lookup_2.
    + rewrite list_lookup_delete_ge in Hc by lia. by eapply list_elem_of_lookup_2.
Qed.

Lemma run_create_product_cases d sku s :
  d !! "sku" = Some (VStr sku) → d !! "_id" = None →
  run (Products.create_product d) s
  = (Raised (HTTPException 409 "SKU already exists"), s) ∨
  absent sku s ∧
  (run (Products.create_product d) s
   = (Raised (PyMongoError DuplicateKeyError), Store (docs s) (N.succ (next_oid s))) ∨
   run (Products.create_product d) s
   = (Returned (Some d),
      Store (docs s ++ [<["_id" := VOid (next_oid s)]> d]) (N.succ (next_oid s)))).
Proof.
  intros Hd Hid.
  destruct (stored_or_absent s sku) as [(i & p & (Hi & Hp & _))|Habs].
  - left. by eapply run_create_product_existing; [|eapply list_elem_of_lookup_2|].
  - right. split; [done|].
    unfold run, Products.create_product. rewrite Hd. simpl.
    rewrite (find_one_absent _ _ false Habs). simpl.
    unfold insert_one. rewrite Hid, lookup_insert_eq. simpl.
    destruct (existsb _ (docs s)); simpl; [by left|]. right.
    unfold find_one. rewrite find_first_app_new.
    + simpl. by rewrite delete_insert_eq, delete_id.
    + by apply absent_find_first.
    + apply matches_sku_query. unfold has_sku. by rewrite lookup_insert_ne.
Qed.

Lemma transition_create_product d sku s :
  d !! "sku" = Some (VStr sku) → d !! "_id" = None →
  transition s (run (Products.create_product d) s).2.
Proof.
  intros Hd Hid.
  destruct (run_create_product_cases d sku s Hd Hid) as [->|[Habs [->| ->]]]; simpl.
  - by apply Unchanged.
  - apply Unchanged; simpl; [done|lia].
  - by apply (Inserted _ _ sku d).
Qed.

Lemma run_delete_product_cases sku s :
  run (Products.delete_product sku) s = (Raised (not_found sku), s) ∨
  ∃ i p, stored s sku i p ∧
    run (Products.delete_product sku) s
    = (Returned {[ "message" := VStr ("Product '" ++ sku ++ "' deleted successfully") ]},
       Store (delete i (docs s)) (next_oid s)).
Proof.
  destruct (stored_or_absent s sku) as [(i & p & Hst)|Habs].
  - right. exists i, p. split; [done|]. by apply (run_delete_product_stored _ _ i p).
  - left. by apply run_delete_product_absent.
Qed.

Lemma run_get_product_store sku s : (run (Products.get_product sku) s).2 = s.
Proof.
  destruct (stored_or_absent s sku) as [(i & p & Hst)|Habs].
  - by rewrite (run_get_product_stored _ _ _ _ Hst).
  - by rewrite (run_get_product_absent _ _ Habs).
Qed.

Lemma update_data_leaves (body : ProductUpdate.t) k :
  k ≠ "name" → k ≠ "price" → k ≠ "category" →
  leaves_field (SetFields (filter not_none (ProductUpdate.model_dump body))) k.
Proof. apply update_data_lookup_other. Qed.

(** Every endpoint function moves the collection by one transition. *)
Lemma transition_endpoint e ps body p s :
  endpoint_call e ps body = Some p → transition s (run p s).2.
Proof.
  unfold endpoint_call. intros H.
  destruct e;
    try (destruct (ProductCreate.validate body) as [b|]; [|done]);
    try (destruct (ProductUpdate.validate body) as [b|]; [|done]);
    try (destruct (Review.validate body) as [b|]; [|done]);
    try (destruct (ReviewUpdate.validate body) as [b|]; [|done]);
    try (destruct (ReviewArrayFilterUpdate.validate body) as [b|]; [|done]);
    cbn [mbind option_bind] in H; apply (inj Some) in H as <-;
    rewrite run_fmap; cbn [snd].
  - by apply Unchanged.
  - by apply Unchanged.
  - unfold get_product. rewrite run_get_product_store. by apply Unchanged.
  - unfold create_product.
    by apply (transition_create_product _ (ProductCreate.sku b)).
  - unfold update_product.
    apply (transition_update_then_read (param "sku" ps));
      by apply update_data_leaves.
  - unfold delete_product.
    change (run (_ ← Products.delete_product (param "sku" ps); mret ()) s)
      with (run ((λ _, ()) <$> Products.delete_product (param "sku" ps)) s).
    rewrite run_fmap. cbn [snd].
    destruct (run_delete_product_cases (param "sku" ps) s) as [->|(i & q & _ & ->)]; simpl.
    + by apply Unchanged.
    + by apply (Deleted _ _ i).
  - unfold add_review.
    by apply (transition_update_then_read (param "sku" ps)).
  - unfold update_review_positional.
    by apply (transition_update_then_read (param "sku" ps)).
  - unfold patch_review_with_arrayfilter.
    by apply (transition_update_then_read (param "sku" ps)).
Qed.

Lemma transition_serve req s : transition s (serve req s).2.
Proof.
  unfold serve.
  destruct (dispatch _ _) as [r ps| |]; simpl; try by apply Unchanged.
  destruct (endpoint_call _ _ _) as [p|] eqn:E; simpl; [|by apply Unchanged].
  pose proof (transition_endpoint _ _ _ _ s E) as H.
  by destruct (run p s) as [[v|e] s'].
Qed.

Lemma dispatch_Matched_in_routes m path r ps :
  dispatch m path = Matched r ps →
  r ∈ routes ∧ route_method r = m ∧ match_path (route_path r) path = Some ps.
Proof.
  intros (pre & post & Hrs & Hpath & Hm & _)%dispatch_in_Matched.
  split_and!; [|done..]. rewrite Hrs. apply elem_of_app. right. by left.
Qed.

Lemma route_status_success r : r ∈ routes → success_status (route_status r).
Proof.
  unfold routes, success_status. intros H.
  repeat (apply elem_of_cons in H as [-> | H]; [simpl; tauto|]).
  by apply elem_of_nil in H.
Qed.

Lemma fmap_outcome_Raised {A B} (f : A → B) o e :
  fmap_outcome f o = Raised e → o = Raised e.
Proof. destruct o; simpl; congruence. Qed.

Lemma fmap_outcome_Returned {A B} (f : A → B) o b :
  fmap_outcome f o = Returned b → ∃ a, o = Returned a ∧ b = f a.
Proof. destruct o; simpl; intros; simplify_eq; eauto. Qed.

Lemma run_update_then_read_raised sku q u fs s sc detail :
  (run (update_then_read sku q u fs) s).1 = Raised (HTTPException sc detail) →
  sc = 404 ∧ (run (update_then_read sku q u fs) s).2 = s.
Proof.
  destruct (run_update_then_read_cases sku q u fs s)
    as [[Hs [Ho|[e Ho]]]|(i & p & p' & _ & _ & Hr)].
  - rewrite Ho. unfold not_found. intros [= <- _]. done.
  - rewrite Ho. done.
  - rewrite Hr. done.
Qed.

Lemma run_update_then_read_returned sku q u fs s o :
  (run (update_then_read sku q u fs) s).1 = Returned o → hides_id (json_opt o).
Proof.
  destruct (run_update_then_read_cases sku q u fs s)
    as [[Hs [Ho|[e Ho]]]|(i & p & p' & _ & _ & Hr)].
  - rewrite Ho. done.
  - rewrite Ho. done.
  - rewrite Hr. simpl. intros [= <-]. unfold find_one.
    destruct (find_first _ _) as [[j d]|]; simpl; [|done]. apply lookup_delete_eq.
Qed.

Lemma model_dump_no_id (b : ProductCreate.t) :
  ProductCreate.model_dump b !! "_id" = None.
Proof. reflexivity. Qed.

(** An endpoint function that raises an HTTP error raised 404 or 409 and
    did not touch the collection. *)
Lemma endpoint_raised e ps body p s sc detail :
  endpoint_call e ps body = Some p →
  (run p s).1 = Raised (HTTPException sc detail) →
  (sc = 404 ∨ sc = 409) ∧ (run p s).2 = s.
Proof.
  unfold endpoint_call. intros H.
  destruct e;
    try (destruct (ProductCreate.validate body) as [b|]; [|done]);
    try (destruct (ProductUpdate.validate body) as [b|]; [|done]);
    try (destruct (Review.validate body) as [b|]; [|done]);
    try (destruct (ReviewUpdate.validate body) as [b|]; [|done]);
    try (destruct (ReviewArrayFilterUpdate.validate body) as [b|]; [|done]);
    cbn [mbind option_bind] in H; apply (inj Some) in H as <-;
    rewrite run_fmap; cbn [fst snd]; intros Hr%fmap_outcome_Raised.
  - done.
  - done.
  - unfold get_product in *. rewrite run_get_product_store. split; [|done].
    destruct (stored_or_absent s (param "sku" ps)) as [(i & q & Hst)|Habs].
    + by rewrite (run_get_product_stored _ _ _ _ Hst) in Hr.
    + rewrite (run_get_product_absent _ _ Habs) in Hr.
      unfold not_found in Hr. simplify_eq/=. by left.
  - unfold create_product in *.
    destruct (run_create_product_cases (ProductCreate.model_dump b)
                (ProductCreate.sku b) s eq_refl eq_refl)
      as [E|[_ [E|E]]]; rewrite E in Hr |- *; simplify_eq/=. split; [by right|done].
  - unfold update_product in *.
    apply run_update_then_read_raised in Hr as [-> ?]. split; [by left|done].
  - unfold delete_product in *.
    change (run (_ ← Products.delete_product (param "sku" ps); mret ()) s)
      with (run ((λ _, ()) <$> Products.delete_product (param "sku" ps)) s) in *.
    rewrite run_fmap in Hr |- *. cbn [fst snd] in *.
    apply fmap_outcome_Raised in Hr.
    destruct (run_delete_product_cases (param "sku" ps) s) as [E|(i & q & _ & E)];
      rewrite E in Hr |- *; unfold not_found in Hr; simplify_eq/=.
    split; [by left|done].
  - unfold add_review in *.
    apply run_update_then_read_raised in Hr as [-> ?]. split; [by left|done].
  - unfold update_review_positional in *.
    apply run_update_then_read_raised in Hr as [-> ?]. split; [by left|done].
  - unfold patch_review_with_arrayfilter in *.
    apply run_update_then_read_raised in Hr as [-> ?]. split; [by left|done].
Qed.

Lemma find_hides_id q s : hides_id (VArr (VDoc <$> find q true s)).
Proof.
  simpl. intros d Hd. apply list_elem_of_fmap in Hd as (d' & [= ->] & Hd').
  unfold find in Hd'. apply list_elem_of_fmap in Hd' as (d0 & -> & _).
  apply lookup_delete_eq.
Qed.

(** What an endpoint function returns shows no storage identifier. *)
Lemma endpoint_returned e ps body p s v :
  endpoint_call e ps body = Some p →
  (run p s).1 = Returned v → hides_id v.
Proof.
  unfold endpoint_call. intros H.
  destruct e;
    try (destruct (ProductCreate.validate body) as [b|]; [|done]);
    try (destruct (ProductUpdate.validate body) as [b|]; [|done]);
    try (destruct (Review.validate body) as [b|]; [|done]);
    try (destruct (ReviewUpdate.validate body) as [b|]; [|done]);
    try (destruct (ReviewArrayFilterUpdate.validate body) as [b|]; [|done]);
    cbn [mbind option_bind] in H; apply (inj Some) in H as <-;
    rewrite run_fmap; cbn [fst snd];
    intros (o & Hr & ->)%fmap_outcome_Returned.
  - unfold health_check in Hr. simpl in Hr. by simplify_eq.
  - unfold list_products, Products.get_all_products in Hr. simpl in Hr.
    simplify_eq. apply find_hides_id.
  - unfold get_product in *.
    destruct (stored_or_absent s (param "sku" ps)) as [(i & q & Hst)|Habs].
    + rewrite (run_get_product_stored _ _ _ _ Hst) in Hr. simplify_eq/=.
      apply lookup_delete_eq.
    + by rewrite (run_get_product_absent _ _ Habs) in Hr.
  - unfold create_product in *.
    destruct (run_create_product_cases (ProductCreate.model_dump b)
                (ProductCreate.sku b) s eq_refl eq_refl)
      as [E|[_ [E|E]]]; rewrite E in Hr; simplify_eq/=. reflexivity.
  - unfold update_product in *. by eapply run_update_then_read_returned.
  - done.
  - unfold add_review in *. by eapply run_update_then_read_returned.
  - unfold update_review_positional in *. by eapply run_update_then_read_returned.
  - unfold patch_review_with_arrayfilter in *. by eapply run_update_then_read_returned.
Qed.

Lemma decimal_ok_spec u p :
  decimal_ok u p = true ↔ (0 ≤ u)%Z ∧ (p ≤ 2)%nat ∧ (u < 10 ^ (8 + Z.of_nat p))%Z.
Proof.
  unfold decimal_ok. rewrite !andb_true_iff, bool_decide_eq_true. lia.
Qed.

Lemma req_rating_Some o n : req_rating o = Some n ↔ o = Some (VInt n) ∧ rating_ok n.
Proof.
  unfold req_rating, rating_ok. split.
  - destruct o as [[]|]; try done.
    destruct ((1 <=? n0)%Z && (n0 <=? 5)%Z) eqn:E; [|done].
    intros [= ->]. apply andb_true_iff in E. split; [done|lia].
  - intros [-> H].
    assert ((1 <=? n)%Z && (n <=? 5)%Z = true) as -> by (apply andb_true_iff; lia).
    done.
Qed.

Lemma req_price_Some o x :
  req_price o = Some x →
  price_ok x ∧ (o = Some (VDec x.1 x.2) ∨ (o = Some (VInt x.1) ∧ x.2 = 0%nat)).
Proof.
  unfold req_price, price_ok. destruct o as [[]|]; try done.
  - destruct (decimal_ok n 0) eqn:E; intros; simplify_eq/=. eauto.
  - destruct (decimal_ok unscaled places) eqn:E; intros; simplify_eq/=. eauto.
Qed.

Lemma Review_validate_Some body r :
  Review.validate body = Some r →
  ∃ b, body = VDoc b ∧
    b !! "review_id" = Some (VStr (Review.review_id r)) ∧
    b !! "user_id" = Some (VStr (Review.user_id r)) ∧
    b !! "rating" = Some (VInt (Review.rating r)) ∧
    rating_ok (Review.rating r) ∧
    b !! "verified" = Some (VBool (Review.verified r)) ∧
    optional req_str (b !! "comment") = Some (Review.comment r).
Proof.
  unfold Review.validate. destruct body as [| | | | | | |b]; try done. intros H.
  exists b. split; [done|].
  destruct (b !! "review_id") as [[]|]; simpl in H; try done.
  destruct (b !! "user_id") as [[]|]; simpl in H; try done.
  destruct (req_rating (b !! "rating")) as [n|] eqn:En; simpl in H; [|done].
  apply req_rating_Some in En as [En ?].
  destruct (optional req_str (b !! "comment")) as [c|]; simpl in H; [|done].
  destruct (b !! "verified") as [[]|]; simpl in H; try done.
  by simplify_eq/=.
Qed.

Lemma Review_round_trip r :
  rating_ok (Review.rating r) →
  Review.validate (VDoc (Review.model_dump r)) = Some r.
Proof.
  intros Hr. unfold Review.validate.
  change (Review.model_dump r !! "review_id") with (Some (VStr (Review.review_id r))).
  change (Review.model_dump r !! "user_id") with (Some (VStr (Review.user_id r))).
  change (Review.model_dump r !! "rating") with (Some (VInt (Review.rating r))).
  change (Review.model_dump r !! "comment") with (Some (dump_opt_str (Review.comment r))).
  change (Review.model_dump r !! "verified") with (Some (VBool (Review.verified r))).
  rewrite (proj2 (req_rating_Some _ _) (conj eq_refl Hr)).
  destruct r as [rid uid n [c|] v]; reflexivity.
Qed.

Lemma Review_round_trip_list rs :
  Forall (λ r, rating_ok (Review.rating r)) rs →
  mapM Review.validate (VDoc ∘ Review.model_dump <$> rs) = Some rs.
Proof.
  intros H. apply mapM_Some. apply Forall2_fmap_l.
  apply Forall_Forall2_diag. eapply Forall_impl; [exact H|].
  intros r Hr. by apply Review_round_trip.
Qed.

Lemma mapM_validate_ratings l rs :
  mapM Review.validate l = Some rs →
  Forall (λ r, rating_ok (Review.rating r)) rs.
Proof.
  intros H%mapM_Some. induction H as [|x r l rs Hx _ IH]; constructor; [|done].
  by apply Review_validate_Some in Hx as (b & _ & _ & _ & _ & ? & _).
Qed.

Lemma ProductCreate_validate_bounds body p :
  ProductCreate.validate body = Some p →
  price_ok (ProductCreate.price p) ∧
  Forall (λ r, rating_ok (Review.rating r)) (ProductCreate.reviews p).
Proof.
  unfold ProductCreate.validate. destruct body as [| | | | | | |b]; try done. intros H.
  destruct (req_str (b !! "sku")) as [sku|]; simpl in H; [|done].
  destruct (req_str (b !! "name")) as [name|]; simpl in H; [|done].
  destruct (req_price (b !! "price")) as [price|] eqn:Ep; simpl in H; [|done].
  destruct (optional req_str (b !! "category")) as [c|]; simpl in H; [|done].
  apply req_price_Some in Ep as [Hp _].
  destruct (b !! "reviews") as [[]|]; simpl in H; try done.
  - destruct (mapM Review.validate l) as [rs|] eqn:Em; simpl in H; [|done].
    simplify_eq/=. split; [done|]. by eapply mapM_validate_ratings.
  - simplify_eq/=. split; [done|]. constructor.
Qed.

Lemma filter_matches_all (l : list doc) :
  filter (λ d, matches [] d = true) l = l.
Proof.
  induction l as [|d l IH]; [done|].
  rewrite filter_cons_True by done. by rewrite IH.
Qed.

Lemma stored_after_delete s sku i p sku' j q :
  stored s sku i p → sku' ≠ sku → stored s sku' j q →
  stored (Store (delete i (docs s)) (next_oid s)) sku'
    (if decide (j < i)%nat then j else pred j) q.
Proof.
  intros (Hi & Hp & _) Hne (Hj & Hq & Hfirst).
  assert (j ≠ i) as Hji.
  { intros ->. simplify_eq. unfold has_sku in *. congruence. }
  unfold stored. simpl. split_and!; [|done|].
  - case_decide.
    + by rewrite list_lookup_delete_lt.
    + rewrite list_lookup_delete_ge by lia.
      replace (S (pred j)) with j by lia. done.
  - intros c z Hc Hz. destruct (decide (c < i)%nat).
    + rewrite list_lookup_delete_lt in Hz by done.
      apply (Hfirst c z); [|done]. case_decide; lia.
    + rewrite list_lookup_delete_ge in Hz by lia.
      apply (Hfirst (S c) z); [|done]. case_decide; lia.
Qed.

Lemma absent_after_delete s sku i p :
  stored s sku i p → unique_skus s →
  absent sku (Store (delete i (docs s)) (next_oid s)).
Proof.
  intros (Hi & Hp & _) Huniq d Hd Hsku. simpl in Hd.
  apply list_elem_of_lookup_1 in Hd as [c Hc].
  destruct (decide (c < i)%nat).
  - rewrite list_lookup_delete_lt in Hc by done.
    pose proof (Huniq _ _ _ _ _ Hc Hi Hsku Hp). lia.
  - rewrite list_lookup_delete_ge in Hc by lia.
    pose proof (Huniq _ _ _ _ _ Hc Hi Hsku Hp). lia.
Qed.

(** The fields [model_dump(exclude_none=True)] hands on. *)
Lemma review_update_data_user_id (b : ReviewUpdate.t) :
  ReviewUpdate.model_dump_exclude_none b !! "user_id" = VStr <$> ReviewUpdate.user_id b.
Proof. destruct b as [[]  [] [] []]; reflexivity. Qed.

Lemma review_update_data_rating (b : ReviewUpdate.t) :
  ReviewUpdate.model_dump_exclude_none b !! "rating" = VInt <$> ReviewUpdate.rating b.
Proof. destruct b as [[]  [] [] []]; reflexivity. Qed.

Lemma review_update_data_comment (b : ReviewUpdate.t) :
  ReviewUpdate.model_dump_exclude_none b !! "comment" = VStr <$> ReviewUpdate.comment b.
Proof. destruct b as [[]  [] [] []]; reflexivity. Qed.

Lemma review_update_data_verified (b : ReviewUpdate.t) :
  ReviewUpdate.model_dump_exclude_none b !! "verified" = VBool <$> ReviewUpdate.verified b.
Proof. destruct b as [[]  [] [] []]; reflexivity. Qed.

Lemma put_lookup_ne {T} k (f : T → value) o d k' :
  k' ≠ k → ReviewUpdate.put k f o d !! k' = d !! k'.
Proof. intros. destruct o; simpl; [by rewrite lookup_insert_ne|done]. Qed.

Lemma review_update_data_other (b : ReviewUpdate.t) k :
  k ≠ "user_id" → k ≠ "rating" → k ≠ "comment" → k ≠ "verified" →
  ReviewUpdate.model_dump_exclude_none b !! k = None.
Proof.
  intros. unfold ReviewUpdate.model_dump_exclude_none.
  by rewrite !put_lookup_ne.
Qed.

Lemma review_update_data_not_null (b : ReviewUpdate.t) k :
  ReviewUpdate.model_dump_exclude_none b !! k ≠ Some VNull.
Proof.
  destruct (decide (k = "user_id")) as [->|]; [rewrite review_update_data_user_id; by destruct (ReviewUpdate.user_id b)|].
  destruct (decide (k = "rating")) as [->|]; [rewrite review_update_data_rating; by destruct (ReviewUpdate.rating b)|].
  destruct (decide (k = "comment")) as [->|]; [rewrite review_update_data_comment; by destruct (ReviewUpdate.comment b)|].
  destruct (decide (k = "verified")) as [->|]; [rewrite review_update_data_verified; by destruct (ReviewUpdate.verified b)|].
  by rewrite review_update_data_other.
Qed.

Lemma dispatch_post_review sku :
  dispatch POST ["products"; sku; "reviews"]
  = if bool_decide (sku = "") then NoRoute
    else Matched (Route POST [Lit "products"; Param "sku"; Lit "reviews"] AddReview 201)
           [("sku", sku)].
Proof. unfold dispatch, routes. simpl. by case_bool_decide. Qed.

Lemma Review_validate_rating_out b n :
  b !! "rating" = Some (VInt n) → ¬ rating_ok n → Review.validate (VDoc b) = None.
Proof.
  intros Hb Hn. destruct (Review.validate (VDoc b)) as [r|] eqn:E; [|done].
  apply Review_validate_Some in E as (b' & [= <-] & _ & _ & Hr & Hok & _).
  rewrite Hb in Hr. by simplify_eq.
Qed.

Lemma validate_empty_fields (raw : doc) :
  (∀ k, k = "name" ∨ k = "price" ∨ k = "category" →
        raw !! k = None ∨ raw !! k = Some VNull) →
  ProductUpdate.validate (VDoc raw)
  = Some {| ProductUpdate.name := None; ProductUpdate.price := None;
            ProductUpdate.category := None |}.
Proof.
  intros Hraw. unfold ProductUpdate.validate.
  assert (∀ T (f : option value → option T) k,
            k = "name" ∨ k = "price" ∨ k = "category" →
            optional f (raw !! k) = Some None) as Hopt.
  { intros T f k Hk. by destruct (Hraw k Hk) as [-> | ->]. }
  rewrite !Hopt by tauto. reflexivity.
Qed.

Lemma review_valid_dump r :
  rating_ok (Review.rating r) → review_valid (VDoc (Review.model_dump r)).
Proof. intros H. exists (Review.model_dump r), (Review.rating r). by split_and!. Qed.

Lemma doc_valid_same_reviews d d' :
  d' !! "reviews" = d !! "reviews" → doc_valid d → doc_valid d'.
Proof. intros E H rs Hrs. apply H. by rewrite <- E. Qed.

Lemma ratings_valid_replaced s i p' :
  ratings_valid s → doc_valid p' → ratings_valid (replaced s i p').
Proof.
  unfold ratings_valid, replaced. simpl. intros Hs Hp.
  apply Forall_lookup. intros c d Hc.
  destruct (decide (c = i)) as [->|Hne].
  - apply list_lookup_insert_Some in Hc as [(_ & <- & _)|[? _]]; done.
  - rewrite list_lookup_insert_ne in Hc by done.
    by eapply Forall_lookup_1.
Qed.

Lemma ratings_valid_update_then_read sku q u fs s :
  ratings_valid s →
  (∀ i p p', find_first q s = Some (i, p) → doc_valid p →
             apply_update q u fs p = inr p' → doc_valid p') →
  ratings_valid (run (update_then_read sku q u fs) s).2.
Proof.
  intros Hs Hu.
  destruct (run_update_then_read_cases sku q u fs s)
    as [[-> _]|(i & p & p' & Hf & Ha & ->)]; [done|].
  simpl. apply ratings_valid_replaced; [done|].
  apply (Hu i p p' Hf); [|done].
  eapply Forall_lookup_1; [exact Hs|]. by eapply find_first_lookup.
Qed.

Lemma ReviewUpdate_validate_rating body b n :
  ReviewUpdate.validate body = Some b → ReviewUpdate.rating b = Some n → rating_ok n.
Proof.
  unfold ReviewUpdate.validate. destruct body as [| | | | | | |raw]; try done. intros H Hn.
  destruct (optional req_str (raw !! "user_id")) as [u|]; simpl in H; [|done].
  destruct (optional req_rating (raw !! "rating")) as [r|] eqn:Er; simpl in H; [|done].
  destruct (optional req_str (raw !! "comment")) as [c|]; simpl in H; [|done].
  destruct (optional req_bool (raw !! "verified")) as [v|]; simpl in H; [|done].
  simplify_eq/=. unfold optional in Er.
  destruct (raw !! "rating") as [[]|] eqn:E; simplify_eq/=.
  apply fmap_Some in Er as (m & Hm & [= ->]).
  by apply (req_rating_Some (Some (VInt n0))) in Hm as [_ ?].
Qed.

Lemma positional_index_lookup arr q l i e :
  positional_index arr q l = Some (i, e) → l !! i = Some e.
Proof.
  unfold positional_index. destruct (array_conds arr q); [done|].
  by intros (? & _)%find_index_Some.
Qed.

Lemma doc_valid_positional q (b : ReviewUpdate.t) p p' :
  (∀ n, ReviewUpdate.rating b = Some n → rating_ok n) →
  doc_valid p →
  apply_update q (SetPositional "reviews" (ReviewUpdate.model_dump_exclude_none b)) [] p
  = inr p' →
  doc_valid p'.
Proof.
  intros Hb Hp. unfold apply_update. case_bool_decide; [by intros [= <-]|].
  destruct (p !! "reviews") as [[]|] eqn:Hrs; try done.
  destruct (positional_index _ _ _) as [[i e]|] eqn:Hi; [|done].
  apply positional_index_lookup in Hi.
  destruct e as [| | | | | | |r]; simpl; try done. intros [= <-].
  intros rs. rewrite lookup_insert_eq. intros [= <-].
  pose proof (Hp _ Hrs) as Hold.
  apply Forall_insert; [done|].
  destruct (Forall_lookup_1 _ _ _ _ Hold Hi) as (r0 & n & [= <-] & Hn & Hok).
  destruct (ReviewUpdate.rating b) as [m|] eqn:Em.
  - exists (set_fields (ReviewUpdate.model_dump_exclude_none b) r), m. split_and!; [done| |by apply Hb].
    by rewrite set_fields_lookup, review_update_data_rating, Em.
  - exists (set_fields (ReviewUpdate.model_dump_exclude_none b) r), n. split_and!; [done| |done].
    by rewrite set_fields_lookup, review_update_data_rating, Em.
Qed.

Lemma doc_valid_push (r : Review.t) q p p' :
  rating_ok (Review.rating r) → doc_valid p →
  apply_update q (Push "reviews" (VDoc (Review.model_dump r))) [] p = inr p' →
  doc_valid p'.
Proof.
  intros Hr Hp. unfold apply_update.
  destruct (p !! "reviews") as [[]|] eqn:Hrs; try done; intros [= <-];
    intros rs; rewrite lookup_insert_eq; intros [= <-].
  - apply Forall_app. split; [by apply Hp|]. constructor; [|done].
    by apply review_valid_dump.
  - constructor; [|done]. by apply review_valid_dump.
Qed.

Lemma doc_valid_set_fields q (b : ProductUpdate.t) p p' :
  doc_valid p →
  apply_update q (SetFields (filter not_none (ProductUpdate.model_dump b))) [] p = inr p' →
  doc_valid p'.
Proof.
  intros Hp Ha. eapply doc_valid_same_reviews; [|done].
  eapply apply_update_leaves; [done|]. by apply update_data_leaves.
Qed.

Lemma doc_valid_created (b : ProductCreate.t) oid :
  Forall (λ r, rating_ok (Review.rating r)) (ProductCreate.reviews b) →
  doc_valid (<["_id" := oid]> (ProductCreate.model_dump b)).
Proof.
  intros Hb rs. rewrite lookup_insert_ne by done.
  change (ProductCreate.model_dump b !! "reviews")
    with (Some (VArr (VDoc ∘ Review.model_dump <$> ProductCreate.reviews b))).
  intros [= <-]. apply Forall_fmap. eapply Forall_impl; [done|].
  intros r Hr. by apply review_valid_dump.
Qed.

Lemma ratings_valid_delete s i :
  ratings_valid s → ratings_valid (Store (delete i (docs s)) (next_oid s)).
Proof.
  unfold ratings_valid. simpl. intros H. apply Forall_lookup. intros c d Hc.
  destruct (decide (c < i)%nat).
  - rewrite list_lookup_delete_lt in Hc by done. by eapply Forall_lookup_1.
  - rewrite list_lookup_delete_ge in Hc by lia. by eapply Forall_lookup_1.
Qed.

Lemma fresh_ids_insert d s :
  d !! "_id" = None → fresh_ids s →
  fresh_ids (Store (docs s ++ [<["_id" := VOid (next_oid s)]> d]) (N.succ (next_oid s))).
Proof.
  intros Hid Hfresh e n He Hen. simpl in *.
  apply elem_of_app in He as [He|He].
  - specialize (Hfresh e n He Hen). lia.
  - apply list_elem_of_singleton in He. subst e.
    rewrite lookup_insert_eq in Hen. simplify_eq. lia.
Qed.

Lemma run_with_shared_nil {A} (p : prog A) s :
  run_with exec_shared p ([], s) = ((run p s).1, ([], (run p s).2)).
Proof.
  unfold run. revert s. induction p as [a|e|X c k IH]; intros s; simpl; try done.
  unfold exec_shared at 1. simpl.
  destruct (exec X c s) as [[e|x] s1]; simpl; [done|]. apply IH.
Qed.

Lemma ProductUpdate_validate_price body b x :
  ProductUpdate.validate body = Some b → ProductUpdate.price b = Some x →
  decimal_ok x.1 x.2 = true.
Proof.
  destruct body as [| | | | | | |raw]; try done.
  intros (_ & Hp & _)%validate_Some Hx. rewrite Hx in Hp.
  unfold optional in Hp.
  destruct (raw !! "price") as [[]|] eqn:E; try done;
    apply fmap_Some in Hp as (y & Hy & [= ->]);
    by apply req_price_Some in Hy as [? _].
Qed.

Lemma catalogue_unique : unique_skus catalogue.
Proof.
  intros [|[|a]] [|[|b]] x y sku Hx Hy Hsx Hsy; simplify_eq/=; try done;
    vm_compute in Hsx, Hsy; congruence.
Qed.

Lemma catalogue_fresh : fresh_ids catalogue.
Proof.
  intros d n Hd Hn. unfold catalogue in Hd. simpl in Hd.
  apply elem_of_cons in Hd as [-> | Hd].
  - vm_compute in Hn. injection Hn as <-. reflexivity.
  - apply list_elem_of_singleton in Hd. subst d.
    vm_compute in Hn. injection Hn as <-. reflexivity.
Qed.

Lemma catalogue_ratings_valid : ratings_valid catalogue.
Proof.
  unfold ratings_valid, catalogue. simpl. repeat constructor.
  - apply doc_valid_created. repeat constructor; unfold rating_ok; simpl; lia.
  - intros rs Hrs. vm_compute in Hrs. injection Hrs as <-. constructor.
Qed.

Lemma absent_after_rename s sku i p p' :
  stored s sku i p → unique_skus s → ¬ has_sku sku p' →
  absent sku (replaced s i p').
Proof.
  intros (Hi & Hp & _) Huniq Hp' d Hd Hsku. simpl in Hd.
  apply list_elem_of_lookup_1 in Hd as [c Hc].
  destruct (decide (c = i)) as [->|Hne].
  - rewrite list_lookup_insert_eq in Hc by (by eapply lookup_lt_Some). by simplify_eq.
  - rewrite list_lookup_insert_ne in Hc by done.
    by pose proof (Huniq _ _ _ _ _ Hc Hi Hsku Hp).
Qed.

End request_effects.

(* ================================================================= *)
(** ** Properties of the specification *)

Section properties.
Import Mongo Py Spec.
Open Scope string_scope.

(** **** Missing products *)



(** **** Creation *)

(** Claim C6.  In every store state, creating a product whose sku is
    already carried by a stored document fails with Conflict (status 409)
    and leaves the whole store, the existing document included,
    unchanged. *)
Theorem create_existing_sku_conflict (product_data : doc) sku existing s :
  product_data !! "sku" = Some (VStr sku) →
  existing ∈ docs s → has_sku sku existing →
  run (Products.create_product product_data) s
  = (Raised (HTTPException 409 "SKU already exists"), s).
Proof. apply run_create_product_existing. Qed.

Lemma create_existing_sku_conflict_witness :
  run (Products.create_product
         (App.ProductCreate.model_dump (widget_body [review_r2]))) catalogue
  = (Raised (HTTPException 409 "SKU already exists"), catalogue).
Proof.
  apply (create_existing_sku_conflict _ "A1" (widget [review_r1; review_r2; review_r1])).
  - reflexivity.
  - unfold catalogue. simpl. left.
  - reflexivity.
Defined.



(** **** Partial update of a product *)



(** **** Appending a review *)



(** **** Updating one review by its identifier *)



(** **** Updating the reviews that satisfy criteria *)


(** The same rejection meets an empty set of new fields, whatever the
    criteria. *)
Lemma filter_set_update_rejects_empty_new_data :
  run (Products.update_review_array_filters "A1" {[ "rating" := VInt 5 ]} ∅) catalogue
  = (Raised (PyMongoError
       (WriteError "The array filter for identifier was not used in the update")),
     catalogue).
Proof. reflexivity. Qed.



(** **** The array-filter route *)

(** Claim C1 (the code departs from it).  The PATCH request to
    /products/A1/reviews/arrayfilters, sent to a catalogue whose widget has
    two reviews rated 5, is answered 404 with the store unchanged: the
    route with the [review_id] parameter, declared first, takes the request
    and runs the positional update for the review named arrayfilters with
    no fields.  The handler declared for the path, run directly on the
    same body, does update both reviews. *)
Theorem arrayfilters_request_takes_positional_route :
  let rated1 := {| App.Review.review_id := "r1"; App.Review.user_id := "u1";
                   App.Review.rating := 1; App.Review.comment := None;
                   App.Review.verified := true |} in
  App.serve (arrayfilters_request "A1" {[ "rating" := VInt 5 ]} {[ "rating" := VInt 1 ]})
    catalogue
  = (App.Response 404 (VDoc {[ "detail" := VStr "Product with SKU 'A1' not found" ]}),
     catalogue) ∧
  run (App.patch_review_with_arrayfilter "A1"
         {| App.ReviewArrayFilterUpdate.filter_criteria := {[ "rating" := VInt 5 ]};
            App.ReviewArrayFilterUpdate.new_data := {[ "rating" := VInt 1 ]} |})
    catalogue
  = (Returned (Some (App.ProductCreate.model_dump
                       (widget_body [rated1; review_r2; rated1]))),
     replaced catalogue 0 (widget [rated1; review_r2; rated1])).
Proof. split; reflexivity. Qed.

(** **** Create and the lookup that follows the insert *)

(** Claim C4, as stated, fails: when another client deletes the new
    product between the insert and the lookup, the lookup finds nothing
    and Create returns nothing; it does not fail with InternalError. *)
Lemma create_internal_error_claim_fails :
  ¬ create_internal_error_claim.
Proof.
  intros H.
  pose (d := ({[ "sku" := VStr "C3"; "name" := VStr "Cog" ]} : doc)).
  pose (other := λ s : store, (run (Products.delete_product "C3") s).2).
  destruct (H _ exec_shared d (VStr "C3") ([id; other], catalogue) _ _ _ _
              eq_refl eq_refl eq_refl eq_refl) as (detail & st & Hrun).
  vm_compute in Hrun. discriminate Hrun.
Qed.

(** Claim C4, amended.  Whatever the collection answers, once the check
    for the sku has found nothing and the insert has been acknowledged,
    Create fails with InternalError (status 500) exactly when the insert
    result carries no usable inserted identifier; otherwise it hands back
    the outcome of the lookup by the new sku as it is, a document or
    nothing. *)
Theorem create_product_internal_error_on_missing_id
    S (h : handler S) (product_data : doc) sku s s1 s2 existing result :
  product_data !! "sku" = Some sku →
  h _ (FindOne (Products.sku_query sku) false) s = (inr existing, s1) →
  truthy_doc existing = false →
  h _ (InsertOne product_data) s1 = (inr result, s2) →
  run_with h (Products.create_product product_data) s
  = if truthy (inserted_id result)
    then match h _ (FindOne (Products.sku_query sku) true) s2 with
         | (inl e, s3) => (Raised e, s3)
         | (inr found, s3) => (Returned found, s3)
         end
    else (Raised (HTTPException 500 "Failed to insert product"), s2).
Proof. apply create_product_flow. Qed.

(** A product sent with the identifier 0 is stored, and Create reports
    the InternalError. *)
Lemma create_product_internal_error_on_missing_id_witness :
  let d : doc := {[ "_id" := VInt 0; "sku" := VStr "C3"; "name" := VStr "Cog" ]} in
  run (Products.create_product d) catalogue
  = (Raised (HTTPException 500 "Failed to insert product"),
     Store (docs catalogue ++ [d]) 2).
Proof.
  intros d.
  exact (create_product_internal_error_on_missing_id store exec d (VStr "C3")
           catalogue catalogue (Store (docs catalogue ++ [d]) 2) None
           {| inserted_id := VInt 0 |} eq_refl eq_refl eq_refl eq_refl).
Defined.

(** **** Null fields in a product update *)



End properties.

(* ================================================================= *)
(** ** What the service keeps, and what it never does *)

Section further_properties.
Import Mongo Py App Spec.
Open Scope string_scope.

(** Property X1.  Whatever the request and however it is answered, serving
    it keeps the skus of the collection unique: one document per sku. *)
Theorem serve_keeps_skus_unique req s :
  unique_skus s → unique_skus (serve req s).2.
Proof. apply unique_skus_transition, transition_serve. Qed.

Lemma serve_keeps_skus_unique_witness :
  unique_skus catalogue ∧ unique_skus (serve cog_request catalogue).2.
Proof.
  split; [exact catalogue_unique|].
  exact (serve_keeps_skus_unique cog_request catalogue catalogue_unique).
Defined.

(** Property X2.  Serving a request never lets a stored document carry an
    ObjectId the store has yet to generate, so a generated [_id] cannot
    collide with a stored one. *)
Theorem serve_keeps_ids_fresh req s :
  fresh_ids s → fresh_ids (serve req s).2.
Proof. apply fresh_ids_transition, transition_serve. Qed.

Lemma serve_keeps_ids_fresh_witness :
  fresh_ids catalogue ∧ fresh_ids (serve cog_request catalogue).2.
Proof.
  split; [exact catalogue_fresh|].
  exact (serve_keeps_ids_fresh cog_request catalogue catalogue_fresh).
Defined.

(** Property X3.  Through the HTTP surface every stored review stays a
    document whose rating is an integer from 1 to 5: creation, appended
    reviews and review updates are validated, product updates cannot name
    the reviews, and the one handler that takes unvalidated review fields
    is never reached. *)
Theorem serve_keeps_ratings_valid req s :
  ratings_valid s → ratings_valid (serve req s).2.
Proof.
  intros Hs. unfold serve.
  destruct (dispatch _ _) as [r ps| |] eqn:Hd; [|done..].
  pose proof (dispatch_never_arrayfilters _ _ _ _ Hd) as Hnot.
  destruct (endpoint_call _ _ _) as [p|] eqn:E; [|done].
  assert (ratings_valid (run p s).2) as Hgoal; [|by destruct (run p s) as [[v|e] s']].
  clear Hd. unfold endpoint_call in E.
  destruct (route_endpoint r); try done;
    try (destruct (ProductCreate.validate (req_body req)) as [b|] eqn:Hval; [|done]);
    try (destruct (ProductUpdate.validate (req_body req)) as [b|] eqn:Hval; [|done]);
    try (destruct (Review.validate (req_body req)) as [b|] eqn:Hval; [|done]);
    try (destruct (ReviewUpdate.validate (req_body req)) as [b|] eqn:Hval; [|done]);
    cbn [mbind option_bind] in E; apply (inj Some) in E as <-;
    rewrite run_fmap; cbn [snd].
  - done.
  - done.
  - unfold get_product. by rewrite run_get_product_store.
  - unfold create_product.
    destruct (run_create_product_cases (ProductCreate.model_dump b)
                (ProductCreate.sku b) s eq_refl eq_refl) as [->|[_ [->| ->]]]; simpl; try done.
    unfold ratings_valid. simpl. apply Forall_app. split; [done|].
    constructor; [|done]. apply doc_valid_created.
    by apply ProductCreate_validate_bounds in Hval as [_ ?].
  - unfold update_product. apply ratings_valid_update_then_read; [done|].
    intros i p p' _ Hp Ha. by eapply doc_valid_set_fields.
  - unfold delete_product.
    change (run (_ ← Products.delete_product (param "sku" ps); mret ()) s)
      with (run ((λ _, ()) <$> Products.delete_product (param "sku" ps)) s).
    rewrite run_fmap. cbn [snd].
    destruct (run_delete_product_cases (param "sku" ps) s) as [->|(i & q & _ & ->)]; simpl.
    + done.
    + by apply ratings_valid_delete.
  - unfold add_review. apply ratings_valid_update_then_read; [done|].
    intros i p p' _ Hp Ha. eapply doc_valid_push; [|done..].
    by apply Review_validate_Some in Hval as (? & _ & _ & _ & _ & ? & _).
  - unfold update_review_positional. apply ratings_valid_update_then_read; [done|].
    intros i p p' _ Hp Ha. eapply doc_valid_positional; [|done..].
    intros n Hn. by eapply ReviewUpdate_validate_rating.
Qed.

Lemma serve_keeps_ratings_valid_witness :
  ratings_valid catalogue ∧
  ratings_valid
    (serve (arrayfilters_request "A1" {[ "rating" := VInt 5 ]} {[ "rating" := VInt 99 ]})
       catalogue).2.
Proof.
  split; [exact catalogue_ratings_valid|].
  exact (serve_keeps_ratings_valid _ catalogue catalogue_ratings_valid).
Defined.



(** Property X5.  A GET request never changes the collection, whatever
    its path and body and whatever the answer. *)
Theorem get_requests_read_only path body s :
  (serve (Request GET path body) s).2 = s.
Proof.
  unfold serve. simpl.
  destruct (dispatch GET path) as [r ps| |] eqn:Hd; [|done..].
  apply dispatch_Matched_in_routes in Hd as (Hin & Hm & _).
  assert (route_endpoint r = HealthCheck ∨ route_endpoint r = ListProducts ∨
          route_endpoint r = GetProduct) as He.
  { unfold routes in Hin.
    repeat (apply elem_of_cons in Hin as [-> | Hin]; [simpl in *; try done; tauto|]).
    by apply elem_of_nil in Hin. }
  destruct He as [-> | [-> | ->]]; cbn [endpoint_call].
  - rewrite (surjective_pairing (run _ s)), run_fmap. cbn [fst snd].
    by destruct (fmap_outcome _ _).
  - rewrite (surjective_pairing (run _ s)), run_fmap. cbn [fst snd].
    by destruct (fmap_outcome _ _).
  - rewrite (surjective_pairing (run _ s)), run_fmap. cbn [fst snd].
    unfold get_product. rewrite run_get_product_store.
    by destruct (fmap_outcome _ _).
Qed.

(** Property X6.  No request reaches [patch_review_with_arrayfilter]:
    whatever the method and the path, the route the router selects is
    another one. *)
Theorem arrayfilters_handler_unreachable m path r ps :
  dispatch m path = Matched r ps → route_endpoint r ≠ PatchReviewWithArrayfilter.
Proof. apply dispatch_never_arrayfilters. Qed.

Lemma arrayfilters_handler_unreachable_witness :
  route_endpoint
    (Route PATCH [Lit "products"; Param "sku"; Lit "reviews"; Param "review_id"]
       UpdateReviewPositional 200)
  ≠ PatchReviewWithArrayfilter.
Proof.
  exact (arrayfilters_handler_unreachable PATCH
           ["products"; "A1"; "reviews"; "arrayfilters"] _
           [("sku", "A1"); ("review_id", "arrayfilters")] eq_refl).
Defined.

(** Property X7.  Listing returns every stored document once, in storage
    order and without its [_id], and leaves the collection unchanged; on
    an empty collection it returns the empty list. *)
Theorem get_all_products_lists_everything s :
  run Products.get_all_products s = (Returned (delete "_id" <$> docs s), s).
Proof.
  unfold run, Products.get_all_products. simpl. unfold find.
  by rewrite filter_matches_all.
Qed.

(** Property X8.  In a collection with unique skus, deleting an existing
    product removes that document and no other: afterwards Get and Delete
    of the same sku fail with NotFound, and every other product is still
    returned by Get as before. *)
Theorem delete_product_removes_only_it sku s i p :
  stored s sku i p → unique_skus s →
  let s' := Store (delete i (docs s)) (next_oid s) in
  run (Products.delete_product sku) s
  = (Returned {[ "message" := VStr ("Product '" ++ sku ++ "' deleted successfully") ]}, s') ∧
  run (Products.get_product sku) s' = (Raised (not_found sku), s') ∧
  run (Products.delete_product sku) s' = (Raised (not_found sku), s') ∧
  (∀ sku' j q, sku' ≠ sku → stored s sku' j q →
     run (Products.get_product sku') s' = (Returned (Some (delete "_id" q)), s')).
Proof.
  intros Hst Huniq s'.
  pose proof (absent_after_delete _ _ _ _ Hst Huniq) as Habs.
  split_and!.
  - by apply (run_delete_product_stored _ _ i p).
  - by apply run_get_product_absent.
  - by apply run_delete_product_absent.
  - intros sku' j q Hne Hq.
    eapply run_get_product_stored. by eapply stored_after_delete.
Qed.

Lemma delete_product_removes_only_it_witness :
  let s' := Store [gadget] 2 in
  run (Products.delete_product "A1") catalogue
  = (Returned {[ "message" := VStr "Product 'A1' deleted successfully" ]}, s') ∧
  run (Products.get_product "A1") s' = (Raised (not_found "A1"), s') ∧
  run (Products.get_product "B2") s' = (Returned (Some (delete "_id" gadget)), s').
Proof.
  intros s'.
  assert (stored catalogue "A1" 0 (widget [review_r1; review_r2; review_r1])) as HA
    by (apply stored_find_first; reflexivity).
  assert (stored catalogue "B2" 1 gadget) as HB
    by (apply stored_find_first; reflexivity).
  destruct (delete_product_removes_only_it "A1" catalogue 0 _ HA catalogue_unique)
    as (Hdel & Hget & _ & Hothers).
  split_and!.
  - exact Hdel.
  - exact Hget.
  - apply (Hothers "B2" 1%nat gadget); [discriminate | exact HB].
Defined.






(** Property X11.  The review PATCH handler merges a validated body into
    the first review with the given identifier: each of user_id, rating,
    comment and verified takes the body's value when the body gives one
    and keeps its prior value otherwise, and the review keeps its
    review_id and every other field. *)
Theorem update_review_handler_merges sku rid (body : ReviewUpdate.t) s i p rs j r :
  stored s sku i p → p !! "reviews" = Some (VArr rs) →
  rs !! j = Some (VDoc r) → r !! "review_id" = Some (VStr rid) →
  (∀ j' e, (j' < j)%nat → rs !! j' = Some e → ¬ has_review_id rid e) →
  let r' := set_fields (ReviewUpdate.model_dump_exclude_none body) r in
  let p' := <["reviews" := VArr (<[j := VDoc r']> rs)]> p in
  run (update_review_positional sku rid body) s
  = (Returned (Some (delete "_id" p')), replaced s i p') ∧
  r' !! "review_id" = Some (VStr rid) ∧
  r' !! "user_id" = from_option (Some ∘ VStr) (r !! "user_id") (ReviewUpdate.user_id body) ∧
  r' !! "rating" = from_option (Some ∘ VInt) (r !! "rating") (ReviewUpdate.rating body) ∧
  r' !! "comment" = from_option (Some ∘ VStr) (r !! "comment") (ReviewUpdate.comment body) ∧
  r' !! "verified" = from_option (Some ∘ VBool) (r !! "verified") (ReviewUpdate.verified body) ∧
  (∀ k, k ≠ "user_id" → k ≠ "rating" → k ≠ "comment" → k ≠ "verified" →
     r' !! k = r !! k).
Proof.
  intros Hst Hrs Hj Hr Hfirst r' p'. split_and!.
  - unfold update_review_positional.
    by apply run_update_review_positional_stored.
  - unfold r'. rewrite set_fields_lookup, review_update_data_other by done. done.
  - unfold r'. rewrite set_fields_lookup, review_update_data_user_id.
    by destruct (ReviewUpdate.user_id body).
  - unfold r'. rewrite set_fields_lookup, review_update_data_rating.
    by destruct (ReviewUpdate.rating body).
  - unfold r'. rewrite set_fields_lookup, review_update_data_comment.
    by destruct (ReviewUpdate.comment body).
  - unfold r'. rewrite set_fields_lookup, review_update_data_verified.
    by destruct (ReviewUpdate.verified body).
  - intros k ? ? ? ?. unfold r'.
    by rewrite set_fields_lookup, review_update_data_other.
Qed.

Lemma update_review_handler_merges_witness :
  let body := {| ReviewUpdate.user_id := None; ReviewUpdate.rating := Some 3;
                 ReviewUpdate.comment := Some "revised";
                 ReviewUpdate.verified := None |} in
  let revised := {| Review.review_id := "r1"; Review.user_id := "u1";
                    Review.rating := 3; Review.comment := Some "revised";
                    Review.verified := true |} in
  run (update_review_positional "A1" "r1" body) catalogue
  = (Returned (Some (ProductCreate.model_dump
                       (widget_body [revised; review_r2; review_r1]))),
     replaced catalogue 0 (widget [revised; review_r2; review_r1])).
Proof.
  intros body revised.
  assert (stored catalogue "A1" 0 (widget [review_r1; review_r2; review_r1])) as Hst
    by (apply stored_find_first; reflexivity).
  destruct (update_review_handler_merges "A1" "r1" body catalogue 0 _
              (VDoc ∘ Review.model_dump <$> [review_r1; review_r2; review_r1])
              0%nat (Review.model_dump review_r1) Hst eq_refl eq_refl eq_refl
              ltac:(intros ? ? Hlt; inversion Hlt))
    as (Hrun & _).
  rewrite Hrun. reflexivity.
Defined.







(** Property X15.  Dumping a product whose price and review ratings are
    within the model's bounds and validating the dump gives the product
    back: what Create stores and returns is itself a body Create accepts,
    field for field. *)
Theorem create_body_round_trip p :
  price_ok (ProductCreate.price p) →
  Forall (λ r, rating_ok (Review.rating r)) (ProductCreate.reviews p) →
  ProductCreate.validate (VDoc (ProductCreate.model_dump p)) = Some p.
Proof.
  intros Hp Hrs. unfold ProductCreate.validate.
  change (ProductCreate.model_dump p !! "sku") with (Some (VStr (ProductCreate.sku p))).
  change (ProductCreate.model_dump p !! "name") with (Some (VStr (ProductCreate.name p))).
  change (ProductCreate.model_dump p !! "price")
    with (Some (VDec (ProductCreate.price p).1 (ProductCreate.price p).2)).
  change (ProductCreate.model_dump p !! "category")
    with (Some (dump_opt_str (ProductCreate.category p))).
  change (ProductCreate.model_dump p !! "reviews")
    with (Some (VArr (VDoc ∘ Review.model_dump <$> ProductCreate.reviews p))).
  unfold price_ok in Hp.
  cbn [mbind option_bind req_str req_price].
  rewrite Hp. cbn [mbind option_bind].
  assert (optional req_str (Some (dump_opt_str (ProductCreate.category p)))
          = Some (ProductCreate.category p)) as ->
    by (by destruct (ProductCreate.category p)).
  cbn [mbind option_bind].
  rewrite (Review_round_trip_list _ Hrs). cbn [mbind option_bind].
  by destruct p as [sku name [u d] c rs].
Qed.

Lemma create_body_round_trip_witness :
  ProductCreate.validate
    (VDoc (ProductCreate.model_dump (widget_body [review_r1; review_r2])))
  = Some (widget_body [review_r1; review_r2]).
Proof.
  apply (create_body_round_trip (widget_body [review_r1; review_r2])).
  - reflexivity.
  - repeat constructor; unfold rating_ok; simpl; lia.
Defined.



End further_properties.
